(** * GitHub user activity CLI: a shallow embedding of [github_activity.py]

    The development follows the source file function by function.  The
    Python values the program handles are modelled as follows.

    - A decoded JSON document is a value of [json]; a [dict] is an
      association list read with [assoc] (first binding wins).
    - [str] is [string], read as ASCII text: the case conversions act on
      the ASCII letters, and the digits and blanks are the ASCII ones.
    - A [datetime] is the number of microseconds elapsed since
      [datetime.min] (0001-01-01T00:00:00), so comparison and subtraction
      of datetimes are those of [Z].
    - A [float] is an IEEE-754 binary64 number, held as a whole number of
      units of 2^-80; true division rounds to the nearest number with a
      53-bit significand, ties to even, as Python does.
      [timedelta.total_seconds()] is the microseconds divided by 10^6 in
      that arithmetic.
    - An exception is a value of [exn]; a computation that may raise
      returns a [result].  [sys.exit(n)] raises [SystemExit n], as it does
      in Python.
    - Code that prints or reads the clock runs in the monad [M], which
      threads a [world]: the lines written so far and the number of clock
      readings taken.  The clock, the network and the texts Python gives
      floats, lists, dicts and dates are parameters of the program. *)

From Stdlib Require Import ZArith List String Ascii Bool Lia DecimalString.
Import ListNotations.

Local Open Scope string_scope.
Local Open Scope Z_scope.

(** ** Exceptions and fallible computations *)

Inductive exn : Type :=
| AttributeError
| TypeError
| ValueError
| OverflowError
| SystemExit (code : Z).

Inductive result (A : Type) : Type :=
| Ok (a : A)
| Raise (e : exn).

Arguments Ok {A} a.
Arguments Raise {A} e.

Definition rbind {A B : Type} (c : result A) (k : A -> result B) : result B :=
  match c with
  | Ok a => k a
  | Raise e => Raise e
  end.

Declare Scope result_scope.
Delimit Scope result_scope with res.
Notation "x <- c ;; k" := (rbind c (fun x => k))
  (at level 61, c at next level, right associativity) : result_scope.

(** [try: c except ValueError: h] *)
Definition except_ValueError {A : Type} (c : result A) (h : result A) : result A :=
  match c with
  | Raise ValueError => h
  | _ => c
  end.

(** ** Strings *)

Module Str.

Definition is_upper (c : ascii) : bool :=
  let n := nat_of_ascii c in (65 <=? n)%nat && (n <=? 90)%nat.

Definition is_lower (c : ascii) : bool :=
  let n := nat_of_ascii c in (97 <=? n)%nat && (n <=? 122)%nat.

Definition is_digit (c : ascii) : bool :=
  let n := nat_of_ascii c in (48 <=? n)%nat && (n <=? 57)%nat.

Definition lower_char (c : ascii) : ascii :=
  if is_upper c then ascii_of_nat (nat_of_ascii c + 32) else c.

Definition upper_char (c : ascii) : ascii :=
  if is_lower c then ascii_of_nat (nat_of_ascii c - 32) else c.

(** [s.lower()] *)
Fixpoint lower (s : string) : string :=
  match s with
  | EmptyString => EmptyString
  | String c s' => String (lower_char c) (lower s')
  end.

(** [s.capitalize()] *)
Definition capitalize (s : string) : string :=
  match s with
  | EmptyString => EmptyString
  | String c s' => String (upper_char c) (lower s')
  end.

(** [s.title()]: a letter that follows a letter is lower-cased, any
    other letter is upper-cased. *)
Fixpoint title_from (after_letter : bool) (s : string) : string :=
  match s with
  | EmptyString => EmptyString
  | String c s' =>
      let letter := is_upper c || is_lower c in
      String (if after_letter then lower_char c else upper_char c)
             (title_from letter s')
  end.

Definition title (s : string) : string := title_from false s.

(** [needle in hay] *)
Fixpoint contains (needle hay : string) : bool :=
  String.prefix needle hay ||
  match hay with
  | EmptyString => false
  | String _ hay' => contains needle hay'
  end.

(** [s.replace(old, new)] for a non-empty [old]: the occurrences of
    [old] are replaced from left to right, without overlap.  [skip]
    counts the characters of a replaced occurrence still to be dropped. *)
Fixpoint replace_from (skip : nat) (old new s : string) : string :=
  match s with
  | EmptyString => EmptyString
  | String c s' =>
      match skip with
      | S k => replace_from k old new s'
      | O =>
          if String.prefix old s
          then new ++ replace_from (String.length old - 1) old new s'
          else String c (replace_from 0 old new s')
      end
  end.

Definition replace (old new s : string) : string := replace_from 0 old new s.

(** [str(n)] for an [int] *)
Definition of_Z (n : Z) : string := NilZero.string_of_int (Z.to_int n).

End Str.

(** ** Sequences *)

(** [l[:n]]: the first [n] elements, and for a negative [n] all but the
    last [-n]. *)
Definition slice_to {A : Type} (l : list A) (n : Z) : list A :=
  if n <? 0
  then firstn (Z.to_nat (Z.max 0 (Z.of_nat (List.length l) + n))) l
  else firstn (Z.to_nat n) l.

(** [[x for x in l if p x]], where evaluating [p] may raise. *)
Fixpoint filter_r {A : Type} (p : A -> result bool) (l : list A) : result (list A) :=
  match l with
  | [] => Ok []
  | x :: l' =>
      match p x with
      | Raise e => Raise e
      | Ok b =>
          match filter_r p l' with
          | Raise e => Raise e
          | Ok r => Ok (if b then x :: r else r)
          end
      end
  end.

(** ** JSON values, as [json.loads] returns them *)

#[local] Unset Elimination Schemes.

Inductive json : Type :=
| JNull
| JBool (b : bool)
| JInt (n : Z)
| JFloat (mantissa exponent : Z)
| JStr (s : string)
| JArr (items : list json)
| JObj (fields : list (string * json)).

#[local] Set Elimination Schemes.

Fixpoint assoc {A : Type} (k : string) (kv : list (string * A)) : option A :=
  match kv with
  | [] => None
  | (k', v) :: kv' => if String.eqb k k' then Some v else assoc k kv'
  end.

(** [v.get(key, default)]; only a [dict] has the method. *)
Definition py_get (v : json) (key : string) (default : json) : result json :=
  match v with
  | JObj fields =>
      match assoc key fields with
      | Some x => Ok x
      | None => Ok default
      end
  | _ => Raise AttributeError
  end.

(** [v == s] for a [str] [s] *)
Definition py_eq_str (v : json) (s : string) : bool :=
  match v with
  | JStr s' => String.eqb s' s
  | _ => false
  end.

(** [v.lower()], [v.capitalize()], [v.replace(old, new)]: methods of [str] only. *)
Definition py_lower (v : json) : result string :=
  match v with
  | JStr s => Ok (Str.lower s)
  | _ => Raise AttributeError
  end.

Definition py_capitalize (v : json) : result string :=
  match v with
  | JStr s => Ok (Str.capitalize s)
  | _ => Raise AttributeError
  end.

Definition py_replace (v : json) (old new : string) : result string :=
  match v with
  | JStr s => Ok (Str.replace old new s)
  | _ => Raise AttributeError
  end.

(** [len(v)] *)
Definition py_len (v : json) : result Z :=
  match v with
  | JStr s => Ok (Z.of_nat (String.length s))
  | JArr items => Ok (Z.of_nat (List.length items))
  | JObj fields => Ok (Z.of_nat (List.length fields))
  | _ => Raise TypeError
  end.

(** [str(v)], as an f-string formats [v].  The text of a float, a list
    or a dict is left to [repr], a parameter of the functions that format
    such values. *)
Definition py_str (repr : json -> string) (v : json) : string :=
  match v with
  | JStr s => s
  | JNull => "None"
  | JBool true => "True"
  | JBool false => "False"
  | JInt n => Str.of_Z n
  | _ => repr v
  end.

(** [int(s)] for a [str]: surrounding blanks are dropped, a sign may come
    first, and single underscores may separate the decimal digits. *)
Module PyInt.

Definition is_space (c : ascii) : bool :=
  let n := nat_of_ascii c in
  (n =? 32)%nat || ((9 <=? n)%nat && (n <=? 13)%nat).

Fixpoint lstrip (l : list ascii) : list ascii :=
  match l with
  | c :: l' => if is_space c then lstrip l' else l
  | [] => []
  end.

Definition strip (l : list ascii) : list ascii :=
  rev (lstrip (rev (lstrip l))).

Definition digit_value (c : ascii) : Z := Z.of_nat (nat_of_ascii c) - 48.

Fixpoint digits (l : list ascii) (acc : Z) (after_digit : bool) : option Z :=
  match l with
  | [] => if after_digit then Some acc else None
  | c :: l' =>
      if Str.is_digit c then digits l' (acc * 10 + digit_value c) true
      else if Ascii.eqb c "_" && after_digit
           then match l' with
                | [] => None
                | _ => digits l' acc false
                end
           else None
  end.

Definition parse (s : string) : result Z :=
  let body := strip (list_ascii_of_string s) in
  let signed :=
    match body with
    | c :: l' =>
        if Ascii.eqb c "-" then option_map Z.opp (digits l' 0 false)
        else if Ascii.eqb c "+" then digits l' 0 false
        else digits body 0 false
    | [] => None
    end in
  match signed with
  | Some n => Ok n
  | None => Raise ValueError
  end.

End PyInt.

(** ** Datetimes and [datetime.strptime] *)

Module Datetime.

(** Microseconds since [datetime.min]. *)
Definition datetime : Type := Z.

Definition min : datetime := 0.

Definition us_per_second : Z := 1000000.
Definition us_per_day : Z := 86400 * us_per_second.

Definition is_leap (y : Z) : bool :=
  (y mod 4 =? 0) && (negb (y mod 100 =? 0) || (y mod 400 =? 0)).

Definition days_in_month (y m : Z) : Z :=
  if m =? 2 then (if is_leap y then 29 else 28)
  else if (m =? 4) || (m =? 6) || (m =? 9) || (m =? 11) then 30
  else 31.

Definition days_before_year (y : Z) : Z :=
  let p := y - 1 in p * 365 + p / 4 - p / 100 + p / 400.

Definition days_before_month (y m : Z) : Z :=
  fold_left Z.add
    (map (fun k => days_in_month y (Z.of_nat k)) (seq 1 (Z.to_nat m - 1))) 0.

(** Proleptic Gregorian ordinal; 0001-01-01 is day 1. *)
Definition ymd2ord (y m d : Z) : Z :=
  days_before_year y + days_before_month y m + d.

(** [datetime(y, mo, d, h, mi, s)]; a field out of range raises
    [ValueError]. *)
Definition make (y mo d h mi s : Z) : result datetime :=
  if (1 <=? y) && (y <=? 9999) && (1 <=? mo) && (mo <=? 12)
     && (1 <=? d) && (d <=? days_in_month y mo)
     && (0 <=? h) && (h <=? 23) && (0 <=? mi) && (mi <=? 59)
     && (0 <=? s) && (s <=? 59)
  then Ok (((ymd2ord y mo d - 1) * 86400 + h * 3600 + mi * 60 + s)
           * us_per_second)
  else Raise ValueError.

(** The regular expression [_strptime] compiles a format into: literal
    characters, compared without regard to case, and one group per
    directive, whose alternatives are tried in order. *)
Inductive item : Type :=
| Lit (c : ascii)
| Group (alternatives : list (list (ascii -> bool))).

Definition range (lo hi : ascii) (c : ascii) : bool :=
  (nat_of_ascii lo <=? nat_of_ascii c)%nat
  && (nat_of_ascii c <=? nat_of_ascii hi)%nat.

Definition one (x : ascii) (c : ascii) : bool := Ascii.eqb x c.

Definition d09 : ascii -> bool := range "0" "9".

(** [%Y]: \d\d\d\d *)
Definition dir_Y : item := Group [[d09; d09; d09; d09]].
(** [%m]: 1[0-2]|0[1-9]|[1-9] *)
Definition dir_m : item :=
  Group [[one "1"; range "0" "2"]; [one "0"; range "1" "9"]; [range "1" "9"]].
(** [%d]: 3[0-1]|[1-2]\d|0[1-9]|[1-9]| [1-9] *)
Definition dir_d : item :=
  Group [[one "3"; range "0" "1"]; [range "1" "2"; d09];
         [one "0"; range "1" "9"]; [range "1" "9"]; [one " "; range "1" "9"]].
(** [%H]: 2[0-3]|[0-1]\d|\d *)
Definition dir_H : item :=
  Group [[one "2"; range "0" "3"]; [range "0" "1"; d09]; [d09]].
(** [%M]: [0-5]\d|\d *)
Definition dir_M : item := Group [[range "0" "5"; d09]; [d09]].
(** [%S]: 6[0-1]|[0-5]\d|\d *)
Definition dir_S : item :=
  Group [[one "6"; range "0" "1"]; [range "0" "5"; d09]; [d09]].

(** ['%Y-%m-%dT%H:%M:%SZ'] *)
Definition format_iso : list item :=
  [dir_Y; Lit "-"; dir_m; Lit "-"; dir_d; Lit "T";
   dir_H; Lit ":"; dir_M; Lit ":"; dir_S; Lit "Z"].

(** ['%Y-%m-%d'] *)
Definition format_date : list item :=
  [dir_Y; Lit "-"; dir_m; Lit "-"; dir_d].

(** One alternative against the front of [s]: the matched text and the
    rest. *)
Fixpoint match_seq (classes : list (ascii -> bool)) (s : string)
  : option (string * string) :=
  match classes with
  | [] => Some (EmptyString, s)
  | cl :: classes' =>
      match s with
      | String c s' =>
          if cl c
          then match match_seq classes' s' with
               | Some (m, rest) => Some (String c m, rest)
               | None => None
               end
          else None
      | EmptyString => None
      end
  end.

(** [regex.match(s)]: the first way through the alternatives that
    matches the whole pattern; the groups, and what is left of [s]. *)
Fixpoint match_items (items : list item) (s : string)
  : option (list string * string) :=
  match items with
  | [] => Some ([], s)
  | Lit x :: items' =>
      match s with
      | String c s' =>
          if Ascii.eqb (Str.lower_char x) (Str.lower_char c)
          then match_items items' s'
          else None
      | EmptyString => None
      end
  | Group alternatives :: items' =>
      (fix try (alts : list (list (ascii -> bool))) :=
         match alts with
         | [] => None
         | alt :: alts' =>
             match match_seq alt s with
             | Some (g, rest) =>
                 match match_items items' rest with
                 | Some (gs, r) => Some (g :: gs, r)
                 | None => try alts'
                 end
             | None => try alts'
             end
         end) alternatives
  end.

(** [int(g)] for the text [g] of a group: decimal digits, after a
    blank in one alternative of [%d]. *)
Fixpoint group_value (acc : Z) (g : string) : Z :=
  match g with
  | EmptyString => acc
  | String c g' =>
      if Str.is_digit c
      then group_value (acc * 10 + PyInt.digit_value c) g'
      else group_value acc g'
  end.

(** The fields [_strptime] reads from [s]; [ValueError] when [s] does
    not match the format or when data remains after the match. *)
Definition fields (format : list item) (s : string) : result (list Z) :=
  match match_items format s with
  | Some (groups, EmptyString) => Ok (map (group_value 0) groups)
  | _ => Raise ValueError
  end.

(** [datetime.strptime(s, '%Y-%m-%dT%H:%M:%SZ')] *)
Definition strptime_iso (s : string) : result datetime :=
  match fields format_iso s with
  | Ok [y; mo; d; h; mi; se] => make y mo d h mi se
  | Ok _ => Raise ValueError
  | Raise e => Raise e
  end.

(** [datetime.strptime(s, '%Y-%m-%d')] *)
Definition strptime_date (s : string) : result datetime :=
  match fields format_date s with
  | Ok [y; mo; d] => make y mo d 0 0 0
  | Ok _ => Raise ValueError
  | Raise e => Raise e
  end.

End Datetime.

Definition datetime : Type := Datetime.datetime.

(** ** Floats

    [diff.total_seconds()] and the quotients of [get_time_ago] are Python
    floats: IEEE-754 binary64 numbers, where a division returns the number
    with a 53-bit significand nearest to the exact quotient, the one with
    an even significand when two are equally near.

    A float is modelled by the whole number of units of 2^-80 it holds.
    Every binary64 number that is zero, or of magnitude 2^-27 or more, is
    such a whole number, and the floats of [get_time_ago] are of this
    kind: [total_seconds()] is zero or at least 10^-6 in magnitude, and a
    quotient is only taken where it is at least 1.  Overflow to infinity
    is not modelled: it takes a number beyond 2^1023, and the difference
    of two datetimes stays below 2^39 seconds. *)

Module Float.

Definition float : Type := Z.

Definition unit_bits : Z := 80.

(** The float 1.0. *)
Definition one : float := 2 ^ unit_bits.

(** The integer nearest to [n / d], the even one on a tie. *)
Definition rne (n d : Z) : Z :=
  let (q, r) := Z.div_eucl n d in
  if 2 * r <? d then q
  else if d <? 2 * r then q + 1
  else if Z.even q then q else q + 1.

(** [n / d] units, for [0 <= n] and [0 < d], rounded to a float: a
    multiple of [2 ^ e] units whose quotient by [2 ^ e] has at most 53
    bits. *)
Definition round53 (n d : Z) : float :=
  let e := Z.max 0 (Z.log2 (n / d) - 52) in
  rne n (d * 2 ^ e) * 2 ^ e.

(** [a / b] for two integers [a] and [b], [0 < b]. *)
Definition of_quotient (a b : Z) : float :=
  if a <? 0 then - round53 (- a * one) b else round53 (a * one) b.

(** [x / k] for a float [x] and an integer [0 < k < 2^53]. *)
Definition div_int (x : float) (k : Z) : float :=
  if x <? 0 then - round53 (- x) k else round53 x k.

(** [x < c] for a float [x] and an integer [c]. *)
Definition lt_int (x : float) (c : Z) : bool := x <? c * one.

(** [int(x)]: the integer part, towards zero. *)
Definition to_int (x : float) : Z := Z.quot x one.

End Float.

(** ** The program: filtering *)

(** [EVENT_TYPE_MAP], in the order of the source. *)
Definition EVENT_TYPE_MAP : list (string * string) :=
  [ ("push", "PushEvent");
    ("create", "CreateEvent");
    ("delete", "DeleteEvent");
    ("issues", "IssuesEvent");
    ("issue_comment", "IssueCommentEvent");
    ("star", "WatchEvent");
    ("watch", "WatchEvent");
    ("fork", "ForkEvent");
    ("pr", "PullRequestEvent");
    ("pull_request", "PullRequestEvent");
    ("pr_review", "PullRequestReviewEvent");
    ("pr_comment", "PullRequestReviewCommentEvent");
    ("release", "ReleaseEvent");
    ("member", "MemberEvent") ].

(** The [filters] dictionary: each of its four keys is absent or holds a
    value of the type [parse_arguments] stores under it. *)
Record filters : Type := {
  event_type : option string;
  repo : option string;
  date_from : option datetime;
  limit : option Z
}.

Definition no_filters : filters :=
  {| event_type := None; repo := None; date_from := None; limit := None |}.

(** [filters.get(key)] as the condition of an [if]: an absent key gives
    [None], which is false, and so are the empty string and zero; a
    datetime is always true. *)
Definition truthy_str (o : option string) : option string :=
  match o with
  | Some EmptyString => None
  | _ => o
  end.

Definition truthy_int (o : option Z) : option Z :=
  match o with
  | Some 0 => None
  | _ => o
  end.

Section Filtering.

Local Open Scope result_scope.

Definition py_strptime_iso (v : json) : result datetime :=
  match v with
  | JStr s => Datetime.strptime_iso s
  | _ => Raise TypeError
  end.

Definition parse_event_date (event : json) : result datetime :=
  date_str <- py_get event "created_at" (JStr EmptyString) ;;
  except_ValueError (py_strptime_iso date_str) (Ok Datetime.min).

(** The conditions of the three list comprehensions. *)
Definition type_is (event_type : string) (e : json) : result bool :=
  t <- py_get e "type" JNull ;;
  Ok (py_eq_str t event_type).

Definition repo_matches (repo_filter : string) (e : json) : result bool :=
  r <- py_get e "repo" (JObj []) ;;
  name <- py_get r "name" (JStr EmptyString) ;;
  lowered <- py_lower name ;;
  Ok (Str.contains repo_filter lowered).

Definition not_before (date_from : datetime) (e : json) : result bool :=
  d <- parse_event_date e ;;
  Ok (date_from <=? d).

Definition filter_events (events : list json) (f : filters)
  : result (list json) :=
  let filtered := events in
  filtered <-
    match truthy_str (event_type f) with
    | Some event_type => filter_r (type_is event_type) filtered
    | None => Ok filtered
    end ;;
  filtered <-
    match truthy_str (repo f) with
    | Some repo => filter_r (repo_matches (Str.lower repo)) filtered
    | None => Ok filtered
    end ;;
  filtered <-
    match date_from f with
    | Some date_from => filter_r (not_before date_from) filtered
    | None => Ok filtered
    end ;;
  let filtered :=
    match truthy_int (limit f) with
    | Some n => slice_to filtered n
    | None => filtered
    end in
  Ok filtered.

End Filtering.

(** ** The program: formatting *)

(** The body of [get_time_ago], given the reading [now] of the clock.
    [diff.total_seconds()] is the float nearest to the microseconds
    divided by 10^6; the comparisons and the divisions are those of
    floats, and [int] truncates. *)
Definition total_seconds (diff : Z) : Float.float :=
  Float.of_quotient diff Datetime.us_per_second.

Definition time_ago (now date : datetime) : string :=
  let diff := now - date in
  let seconds := total_seconds diff in
  let plural (n : Z) := if n =? 1 then EmptyString else "s" in
  if Float.lt_int seconds 60 then "just now"
  else if Float.lt_int seconds 3600 then
    let minutes := Float.to_int (Float.div_int seconds 60) in
    Str.of_Z minutes ++ " minute" ++ plural minutes ++ " ago"
  else if Float.lt_int seconds 86400 then
    let hours := Float.to_int (Float.div_int seconds 3600) in
    Str.of_Z hours ++ " hour" ++ plural hours ++ " ago"
  else if Float.lt_int seconds 2592000 then
    let days := Float.to_int (Float.div_int seconds 86400) in
    Str.of_Z days ++ " day" ++ plural days ++ " ago"
  else
    let months := Float.to_int (Float.div_int seconds 2592000) in
    Str.of_Z months ++ " month" ++ plural months ++ " ago".

Section Describing.

(** [repr]: Python's text for a float, a list or a dict. *)
Variable repr : json -> string.

Local Open Scope result_scope.

Let str := py_str repr.

(** [event.get('payload', {}).get(key, default)] *)
Definition payload_get (event : json) (key : string) (default : json)
  : result json :=
  payload <- py_get event "payload" (JObj []) ;;
  py_get payload key default.

(** The first part of [format_event]: the chain that sets
    [description]. *)
Definition description (event : json) : result string :=
  event_type <- py_get event "type" JNull ;;
  repo <- py_get event "repo" (JObj []) ;;
  repo_name <- py_get repo "name" (JStr "unknown repo") ;;
  if py_eq_str event_type "PushEvent" then
    commits <- payload_get event "commits" (JArr []) ;;
    commit_count <- py_len commits ;;
    Ok ("Pushed " ++ Str.of_Z commit_count ++ " commit(s) to " ++ str repo_name)
  else if py_eq_str event_type "CreateEvent" then
    ref_type <- payload_get event "ref_type" (JStr "repository") ;;
    Ok ("Created " ++ str ref_type ++ " in " ++ str repo_name)
  else if py_eq_str event_type "DeleteEvent" then
    ref_type <- payload_get event "ref_type" (JStr "branch") ;;
    Ok ("Deleted " ++ str ref_type ++ " in " ++ str repo_name)
  else if py_eq_str event_type "IssuesEvent" then
    action <- payload_get event "action" (JStr "updated") ;;
    capitalized <- py_capitalize action ;;
    Ok (capitalized ++ " an issue in " ++ str repo_name)
  else if py_eq_str event_type "IssueCommentEvent" then
    Ok ("Commented on an issue in " ++ str repo_name)
  else if py_eq_str event_type "WatchEvent" then
    Ok ("Starred " ++ str repo_name)
  else if py_eq_str event_type "ForkEvent" then
    Ok ("Forked " ++ str repo_name)
  else if py_eq_str event_type "PullRequestEvent" then
    action <- payload_get event "action" (JStr "updated") ;;
    capitalized <- py_capitalize action ;;
    Ok (capitalized ++ " a pull request in " ++ str repo_name)
  else if py_eq_str event_type "PullRequestReviewEvent" then
    Ok ("Reviewed a pull request in " ++ str repo_name)
  else if py_eq_str event_type "PullRequestReviewCommentEvent" then
    Ok ("Commented on a pull request in " ++ str repo_name)
  else if py_eq_str event_type "ReleaseEvent" then
    action <- payload_get event "action" (JStr "published") ;;
    capitalized <- py_capitalize action ;;
    Ok (capitalized ++ " a release in " ++ str repo_name)
  else if py_eq_str event_type "MemberEvent" then
    Ok ("Added a collaborator to " ++ str repo_name)
  else
    stripped <- py_replace event_type "Event" EmptyString ;;
    Ok (stripped ++ " in " ++ str repo_name).

End Describing.

(** ** Output and the clock *)

Record world : Type := {
  stdout : list string;   (* the texts given to [print], oldest first *)
  clock_reads : nat       (* how many times [utcnow] was called *)
}.

Definition M (A : Type) : Type := world -> result A * world.

Definition mret {A : Type} (a : A) : M A := fun w => (Ok a, w).

Definition mbind {A B : Type} (c : M A) (k : A -> M B) : M B :=
  fun w =>
    match c w with
    | (Ok a, w') => k a w'
    | (Raise e, w') => (Raise e, w')
    end.

Definition lift {A : Type} (r : result A) : M A := fun w => (r, w).

Definition print (text : string) : M unit :=
  fun w => (Ok tt, {| stdout := (stdout w ++ [text])%list;
                      clock_reads := clock_reads w |}).

Definition sys_exit {A : Type} (code : Z) : M A := lift (Raise (SystemExit code)).

Declare Scope M_scope.
Delimit Scope M_scope with M.
Notation "x <- c ;; k" := (mbind c (fun x => k))
  (at level 61, c at next level, right associativity) : M_scope.
Notation "c ;;; k" := (mbind c (fun _ => k))
  (at level 61, right associativity) : M_scope.

(** [for x in l: body x] *)
Fixpoint for_each {A : Type} (l : list A) (body : A -> M unit) : M unit :=
  match l with
  | [] => mret tt
  | x :: l' => mbind (body x) (fun _ => for_each l' body)
  end.

(** What the single request of [fetch_user_activity] meets: an HTTP error
    status, a failure to connect, a body that is not JSON, or a body that
    decodes to a JSON array. *)
Inductive response : Type :=
| HTTPError (code : Z) (reason : string)
| URLError (reason : string)
| JSONDecodeError
| Events (events : list json).

Definition newline : string := String (ascii_of_nat 10) EmptyString.

(** [', '.join(l)] *)
Fixpoint join (sep : string) (l : list string) : string :=
  match l with
  | [] => EmptyString
  | [x] => x
  | x :: l' => x ++ sep ++ join sep l'
  end.

(** ["-" * 60] *)
Fixpoint repeat_string (s : string) (n : nat) : string :=
  match n with
  | O => EmptyString
  | S n' => s ++ repeat_string s n'
  end.

(** ** The program: display, arguments, fetching and [main] *)

Section Program.

(** The environment of a run: the successive readings of the UTC clock,
    Python's text for floats, lists and dicts, the text
    [strftime('%Y-%m-%d')] gives a datetime, and the answer to the
    request for a URL. *)
Variable utcnow : nat -> datetime.
Variable repr : json -> string.
Variable strftime_ymd : datetime -> string.
Variable urlopen : string -> response.

Local Open Scope M_scope.

(** [datetime.utcnow()] *)
Definition read_clock : M datetime :=
  fun w => (Ok (utcnow (clock_reads w)),
            {| stdout := stdout w; clock_reads := S (clock_reads w) |}).

Definition get_time_ago (date : datetime) : M string :=
  now <- read_clock ;;
  mret (time_ago now date).

Definition format_event (event : json) (show_date : bool) : M string :=
  description <- lift (description repr event) ;;
  if show_date then
    event_date <- lift (parse_event_date event) ;;
    time_ago <- get_time_ago event_date ;;
    mret (description ++ " (" ++ time_ago ++ ")")
  else
    mret description.

Definition get_friendly_event_name (event_type : string) : string :=
  match find (fun entry => String.eqb (snd entry) event_type) EVENT_TYPE_MAP with
  | Some (friendly, _) => Str.title (Str.replace "_" " " friendly)
  | None => Str.replace "Event" EmptyString event_type
  end.

Definition display_activity (events : list json) (f : filters) : M unit :=
  match events with
  | [] => print "No activity found matching the filters."
  | _ =>
      let filter_desc : list string := [] in
      let filter_desc :=
        match truthy_str (event_type f) with
        | Some t => app filter_desc ["Type: " ++ get_friendly_event_name t]
        | None => filter_desc
        end in
      let filter_desc :=
        match truthy_str (repo f) with
        | Some r => app filter_desc ["Repo: " ++ r]
        | None => filter_desc
        end in
      let filter_desc :=
        match date_from f with
        | Some d => app filter_desc ["Since: " ++ strftime_ymd d]
        | None => filter_desc
        end in
      print (newline ++ "Recent Activity ("
             ++ Str.of_Z (Z.of_nat (List.length events)) ++ " events)") ;;;
      match filter_desc with
      | [] => mret tt
      | _ => print ("Filters: " ++ join ", " filter_desc)
      end ;;;
      print (repeat_string "-" 60) ;;;
      let show_dates :=
        match date_from f with
        | Some _ => true
        | None => false
        end in
      for_each events (fun event =>
        formatted <- format_event event show_dates ;;
        print ("- " ++ formatted))
  end.

(** [try: c except ValueError: h] for code that prints *)
Definition mexcept_ValueError {A : Type} (c : M A) (h : M A) : M A :=
  fun w =>
    match c w with
    | (Raise ValueError, w') => h w'
    | r => r
    end.

Definition set_event_type (f : filters) (v : string) : filters :=
  {| event_type := Some v; repo := repo f;
     date_from := date_from f; limit := limit f |}.

Definition set_repo (f : filters) (v : string) : filters :=
  {| event_type := event_type f; repo := Some v;
     date_from := date_from f; limit := limit f |}.

Definition set_date_from (f : filters) (v : datetime) : filters :=
  {| event_type := event_type f; repo := repo f;
     date_from := Some v; limit := limit f |}.

Definition set_limit (f : filters) (v : Z) : filters :=
  {| event_type := event_type f; repo := repo f;
     date_from := date_from f; limit := Some v |}.

Definition is_in (x : string) (l : list string) : bool :=
  existsb (String.eqb x) l.

(** [now - timedelta(days=n)]; a result before [datetime.min] raises. *)
Definition minus_days (now : datetime) (n : Z) : result datetime :=
  let d := now - n * Datetime.us_per_day in
  if d <? Datetime.min then Raise OverflowError else Ok d.

(** [now.replace(hour=0, minute=0, second=0, microsecond=0)] *)
Definition start_of_day (now : datetime) : datetime :=
  now - now mod Datetime.us_per_day.

(** The [while] loop of [parse_arguments]: [args] is [args[i:]]. *)
Fixpoint parse_loop (args : list string) (f : filters) : M filters :=
  match args with
  | [] => mret f
  | arg :: rest =>
      if is_in arg ["--type"; "-t"] then
        match rest with
        | value :: rest' =>
            let event_filter := Str.lower value in
            match assoc event_filter EVENT_TYPE_MAP with
            | Some t => parse_loop rest' (set_event_type f t)
            | None =>
                print ("Warning: Unknown event type '" ++ event_filter
                       ++ "'. Ignoring.") ;;;
                parse_loop rest' f
            end
        | [] => print "Error: --type requires a value" ;;; sys_exit 1
        end
      else if is_in arg ["--repo"; "-r"] then
        match rest with
        | value :: rest' => parse_loop rest' (set_repo f value)
        | [] => print "Error: --repo requires a value" ;;; sys_exit 1
        end
      else if is_in arg ["--limit"; "-l"] then
        match rest with
        | value :: rest' =>
            n <- mexcept_ValueError (lift (PyInt.parse value))
                   (print "Error: --limit must be a number" ;;; sys_exit 1) ;;
            parse_loop rest' (set_limit f n)
        | [] => print "Error: --limit requires a value" ;;; sys_exit 1
        end
      else if is_in arg ["--date"; "-d"] then
        match rest with
        | date_str :: rest' =>
            d <- mexcept_ValueError (lift (Datetime.strptime_date date_str))
                   (print "Error: --date must be in format YYYY-MM-DD" ;;;
                    sys_exit 1) ;;
            parse_loop rest' (set_date_from f d)
        | [] => print "Error: --date requires a value" ;;; sys_exit 1
        end
      else if String.eqb arg "--today" then
        now <- read_clock ;;
        let today := start_of_day now in
        parse_loop rest (set_date_from f today)
      else if String.eqb arg "--week" then
        now <- read_clock ;;
        week_ago <- lift (minus_days now 7) ;;
        parse_loop rest (set_date_from f week_ago)
      else
        print ("Warning: Unknown argument '" ++ arg ++ "'. Ignoring.") ;;;
        parse_loop rest f
  end.

(** [argv] is [sys.argv[1:]]. *)
Definition parse_arguments (argv : list string)
  : M (option string * filters) :=
  match argv with
  | [] => mret (None, no_filters)
  | username :: rest =>
      f <- parse_loop rest no_filters ;;
      mret (Some username, f)
  end.

Definition usage_text : list string :=
  [ "GitHub User Activity CLI - Filter by event type, repo, or date";
    newline ++ "Usage:";
    "  python github_activity.py <username> [options]";
    newline ++ "Options:";
    "  --type, -t <type>    Filter by event type";
    "  --repo, -r <repo>    Filter by repository name";
    "  --limit, -l <num>    Limit number of results";
    "  --date, -d <date>    Show events after date (YYYY-MM-DD)";
    "  --today              Show only today's events";
    "  --week               Show events from last 7 days";
    newline ++ "Event Types:";
    "  push, create, delete, issues, issue_comment, star,";
    "  fork, pr (pull_request), pr_review, pr_comment,";
    "  release, member";
    newline ++ "Examples:";
    "  python github_activity.py kamranahmedse";
    "  python github_activity.py kamranahmedse --type push";
    "  python github_activity.py kamranahmedse --type issues --limit 5";
    "  python github_activity.py kamranahmedse --repo developer-roadmap";
    "  python github_activity.py kamranahmedse --date 2024-01-01";
    "  python github_activity.py kamranahmedse --week --type push" ].

Definition print_usage : M unit := for_each usage_text print.

Definition fetch_user_activity (username : string) : M (list json) :=
  let url := "https://api.github.com/users/" ++ username ++ "/events" in
  match urlopen url with
  | Events events => mret events
  | HTTPError code reason =>
      (if code =? 404
       then print ("Error: User '" ++ username ++ "' not found.")
       else print ("Error: HTTP " ++ Str.of_Z code ++ " - " ++ reason)) ;;;
      sys_exit 1
  | URLError reason =>
      print "Error: Could not connect to GitHub. Check your internet connection." ;;;
      print ("Details: " ++ reason) ;;;
      sys_exit 1
  | JSONDecodeError =>
      print "Error: Received invalid data from GitHub." ;;;
      sys_exit 1
  end.

Definition main (argv : list string) : M unit :=
  parsed <- parse_arguments argv ;;
  let '(username, filters) := parsed in
  match username with
  | None => print_usage ;;; sys_exit 1
  | Some username =>
      print ("Fetching activity for GitHub user: " ++ username ++ "...") ;;;
      events <- fetch_user_activity username ;;
      filtered_events <- lift (filter_events events filters) ;;
      display_activity filtered_events filters
  end.

(** The exit status of the process: 0 when [main] returns, the code of
    a [SystemExit], and 1 for any other exception, which the
    interpreter reports with a traceback. *)
Definition exit_status {A : Type} (r : result A) : Z :=
  match r with
  | Ok _ => 0
  | Raise (SystemExit code) => code
  | Raise _ => 1
  end.

Definition initial_world : world := {| stdout := []; clock_reads := O |}.

(** A run of the program on [argv]. *)
Definition run (argv : list string) : Z * list string :=
  let (r, w) := main argv initial_world in
  (exit_status r, stdout w).

End Program.

(** ** The vocabulary of the specification

    The definitions below follow the words of the specification; the
    theorems compare them with the program. *)

(** *** Filtering *)

(** [subseq l1 l2]: [l1] is [l2] with some elements left out, the others
    in their order. *)
Inductive subseq {A : Type} : list A -> list A -> Prop :=
| subseq_nil : subseq [] []
| subseq_skip x l1 l2 : subseq l1 l2 -> subseq l1 (x :: l2)
| subseq_keep x l1 l2 : subseq l1 l2 -> subseq (x :: l1) (x :: l2).



(** The timestamp [parse_event_date] gives a record. *)
Definition parseTimestamp (e : json) : datetime :=
  match parse_event_date e with
  | Ok d => d
  | Raise _ => Datetime.min
  end.


(** A record whose fields, where present, have the types the upstream
    API gives them: [repo] is an object whose [name] is a string, and
    [created_at] is a string. *)
Definition well_typed (e : json) : Prop :=
  exists fields,
    e = JObj fields /\
    (assoc "repo" fields = None \/
     exists repo_fields,
       assoc "repo" fields = Some (JObj repo_fields) /\
       (assoc "name" repo_fields = None \/
        exists name, assoc "name" repo_fields = Some (JStr name))) /\
    (assoc "created_at" fields = None \/
     exists s, assoc "created_at" fields = Some (JStr s)).

(** A filter specification whose only present field is [maxResults = N]. *)
Definition only_limit (N : Z) : filters :=
  {| event_type := None; repo := None; date_from := None; limit := Some N |}.

(** One step of [filter_events]: a list comprehension that runs when its
    filter is set. *)
Definition stage (o : option (json -> result bool)) (l : list json)
  : result (list json) :=
  match o with
  | Some p => filter_r p l
  | None => Ok l
  end.

Definition type_stage (S : filters) : option (json -> result bool) :=
  option_map type_is (truthy_str (event_type S)).

Definition repo_stage (S : filters) : option (json -> result bool) :=
  option_map (fun r => repo_matches (Str.lower r)) (truthy_str (repo S)).

Definition date_stage (S : filters) : option (json -> result bool) :=
  option_map not_before (date_from S).

Definition limit_step (S : filters) (l : list json) : list json :=
  match truthy_int (limit S) with
  | Some n => slice_to l n
  | None => l
  end.




(** *** Timestamps *)

(** [created_at] has the exact form [YYYY-MM-DDTHH:MM:SSZ]. *)
Definition exact_form (s : string) : bool :=
  match list_ascii_of_string s with
  | [y1; y2; y3; y4; a; m1; m2; b; d1; d2; t; h1; h2; c; n1; n2; d; s1; s2; z] =>
      forallb Str.is_digit
        [y1; y2; y3; y4; m1; m2; d1; d2; h1; h2; n1; n2; s1; s2]
      && Ascii.eqb a "-" && Ascii.eqb b "-" && Ascii.eqb t "T"
      && Ascii.eqb c ":" && Ascii.eqb d ":" && Ascii.eqb z "Z"
  | _ => false
  end.

(** A lower and an upper bound on the number of characters an item of a
    format can match. *)
Definition item_min (it : Datetime.item) : nat :=
  match it with
  | Datetime.Lit _ => 1
  | Datetime.Group alts =>
      fold_right (fun alt n => Nat.min (List.length alt) n) 4%nat alts
  end.

Definition item_max (it : Datetime.item) : nat :=
  match it with
  | Datetime.Lit _ => 1
  | Datetime.Group alts =>
      fold_right (fun alt n => Nat.max (List.length alt) n) 0%nat alts
  end.

Definition format_min (items : list Datetime.item) : nat :=
  fold_right (fun it n => (item_min it + n)%nat) 0%nat items.

Definition format_max (items : list Datetime.item) : nat :=
  fold_right (fun it n => (item_max it + n)%nat) 0%nat items.

(** *** Descriptions and relative ages *)

(** The tags of the category table: those [format_event] has a branch
    for, which are the values of [EVENT_TYPE_MAP]. *)
Definition recognized (c : string) : bool :=
  existsb (fun entry => String.eqb (snd entry) c) EVENT_TYPE_MAP.

(** [c] without a trailing ["Event"]. *)
Fixpoint without_trailing_Event (c : string) : string :=
  match c with
  | EmptyString => EmptyString
  | String a c' =>
      if String.eqb c "Event" then EmptyString
      else String a (without_trailing_Event c')
  end.

(** The repository a description names: [repo.name] when it is a string,
    ["unknown repo"] when [repo] or its [name] is absent. *)
Definition repository_text (fields : list (string * json)) : option string :=
  match assoc "repo" fields with
  | None => Some "unknown repo"
  | Some (JObj repo_fields) =>
      match assoc "name" repo_fields with
      | None => Some "unknown repo"
      | Some (JStr name) => Some name
      | Some _ => None
      end
  | Some _ => None
  end.

(** ["<N> <unit>(s) ago"], the unit in the plural unless [N] is 1. *)
Definition ago_text (n : Z) (unit : string) : string :=
  Str.of_Z n ++ " " ++ unit ++ (if n =? 1 then EmptyString else "s") ++ " ago".



(** [n] seconds, in microseconds. *)
Definition seconds (n : Z) : Z := n * Datetime.us_per_second.

(** The count [get_time_ago] shows for a difference of [us] microseconds
    in the tier of [k] seconds: [int(seconds / k)]. *)
Definition float_count (k us : Z) : Z :=
  Float.to_int (Float.div_int (total_seconds us) k).

(** At the last microsecond of count [N] of the tier of [k] seconds the
    float count is [N]; and so for [n] counts from [N] on. *)
Definition upper_ok (k N : Z) : bool :=
  float_count k (seconds ((N + 1) * k) - 1) =? N.

Fixpoint uppers_ok (k : Z) (n : nat) (N : Z) : bool :=
  match n with
  | O => true
  | S n' => upper_ok k N && uppers_ok k n' (N + 1)
  end.

(** The least difference whose count of months is not the floor of the
    quotient: one microsecond short of 6629 months. *)
Definition month_floor_limit : Z := seconds (6629 * 2592000) - 1.


(** *** Display and exit codes *)

(** A minimum-date filter is active. *)
Definition date_filter_active (f : filters) : bool :=
  match date_from f with
  | Some _ => true
  | None => false
  end.

(** The line of an event: its description, and after it the relative
    age between brackets if [with_age] holds. *)
Definition event_line (with_age : bool) (description age : string) : string :=
  "- " ++ description ++ (if with_age then " (" ++ age ++ ")" else EmptyString).

Definition description_text (repr : json -> string) (e : json) : string :=
  match description repr e with
  | Ok d => d
  | Raise _ => EmptyString
  end.

(** The lines of the events, the clock being read once for each line
    that shows an age; [k] readings were taken before. *)
Fixpoint event_lines (utcnow : nat -> datetime) (repr : json -> string)
         (with_age : bool) (k : nat) (events : list json) : list string :=
  match events with
  | [] => []
  | e :: events' =>
      event_line with_age (description_text repr e)
                 (time_ago (utcnow k) (parseTimestamp e))
      :: event_lines utcnow repr with_age (if with_age then S k else k) events'
  end.

(** An event [format_event] can format: its description is defined, and
    so is its date when ages are shown. *)
Definition formattable (repr : json -> string) (with_age : bool) (e : json) : Prop :=
  (exists d, description repr e = Ok d) /\
  (with_age = true -> exists t, parse_event_date e = Ok t).

(** The address [fetch_user_activity] requests. *)
Definition url_of (username : string) : string :=
  "https://api.github.com/users/" ++ username ++ "/events".

(** The fetch fails: not found, another HTTP status, no connection, or a
    body that is not JSON. *)
Definition fetch_fails (r : response) : Prop :=
  match r with
  | Events _ => False
  | _ => True
  end.

(** The flags that take a value. *)
Definition value_flags : list string :=
  ["--type"; "-t"; "--repo"; "-r"; "--limit"; "-l"; "--date"; "-d"].

(** The arguments [pre], on their own, are read to the end without a
    fatal error. *)
Definition parses (utcnow : nat -> datetime) (pre : list string) : Prop :=
  exists f w, parse_loop utcnow pre no_filters initial_world = (Ok f, w).

(** A run succeeds: the arguments name a user, the fetch returns events,
    and filtering and display complete. *)
Definition run_succeeds (utcnow : nat -> datetime) (repr : json -> string)
           (strftime_ymd : datetime -> string) (urlopen : string -> response)
           (argv : list string) : Prop :=
  exists username f w events F w',
    parse_arguments utcnow argv initial_world = (Ok (Some username, f), w) /\
    urlopen (url_of username) = Events events /\
    filter_events events f = Ok F /\
    display_activity utcnow repr strftime_ymd F f
      (snd (print ("Fetching activity for GitHub user: " ++ username ++ "...") w))
    = (Ok tt, w').

(** A computation that, when it raises, ends the process with status 1:
    it raises no [SystemExit] with another code. *)
Definition ends_with_1 {A : Type} (r : result A) : Prop :=
  match r with
  | Raise (SystemExit code) => code = 1
  | _ => True
  end.

(** A pure computation never raises [SystemExit]. *)
Definition no_exit {A : Type} (r : result A) : Prop :=
  match r with
  | Raise (SystemExit _) => False
  | _ => True
  end.

(** ** Sample records and filters *)

Definition push_event : json :=
  JObj [("type", JStr "PushEvent");
        ("repo", JObj [("name", JStr "octo/repo")]);
        ("payload", JObj [("commits", JArr [JNull; JNull; JNull])]);
        ("created_at", JStr "2024-01-15T10:00:00Z")].

Definition watch_event : json :=
  JObj [("type", JStr "WatchEvent");
        ("repo", JObj [("name", JStr "octo/repo")]);
        ("created_at", JStr "2024-01-14T10:00:00Z")].

Definition foo_event : json :=
  JObj [("type", JStr "FooEvent"); ("repo", JObj [("name", JStr "x")])].

(** A record without a [type]. *)
Definition untyped_event : json :=
  JObj [("repo", JObj [("name", JStr "x")])].

(** A record without a [created_at]. *)
Definition undated_event : json :=
  JObj [("type", JStr "ForkEvent"); ("repo", JObj [("name", JStr "x")])].

Definition sample_events : list json := [push_event; watch_event; foo_event].

Definition watch_filter : filters :=
  {| event_type := Some "WatchEvent"; repo := None;
     date_from := None; limit := Some 10 |}.

(** A record whose [created_at] is given in a looser form than the exact
    one: one-digit month, day, hour, minute and second. *)
Definition loosely_dated_event : json :=
  JObj [("type", JStr "ForkEvent"); ("created_at", JStr "2024-1-5T1:2:3Z")].

Definition since (t : datetime) : filters :=
  {| event_type := None; repo := None; date_from := Some t; limit := None |}.

(** A sample environment: the clock stands at 2024-01-15T10:30:00. *)
Definition sample_clock : nat -> datetime := fun _ => 63840911400000000.
Definition sample_repr : json -> string := fun _ => EmptyString.


(** A record whose category holds ["Event"] elsewhere than at its end. *)
Definition event_log_event : json :=
  JObj [("type", JStr "EventLogEvent"); ("repo", JObj [("name", JStr "x")])].

Definition sample_strftime : datetime -> string := fun _ => "2024-01-01".
Definition sample_urlopen : string -> response :=
  fun _ => Events sample_events.

Definition not_found_urlopen : string -> response :=
  fun _ => HTTPError 404 "Not Found".

(** ** Further vocabulary: the parts of a filter specification *)

(** The category of [f] is absent or a tag of [EVENT_TYPE_MAP]. *)
Definition tag_or_absent (f : filters) : Prop :=
  match event_type f with
  | None => True
  | Some t => recognized t = true
  end.

(** [S] cut down to one of its fields. *)
Definition only_type (S : filters) : filters :=
  {| event_type := event_type S; repo := None;
     date_from := None; limit := None |}.

Definition only_repo (S : filters) : filters :=
  {| event_type := None; repo := repo S; date_from := None; limit := None |}.

Definition only_date (S : filters) : filters :=
  {| event_type := None; repo := None;
     date_from := date_from S; limit := None |}.

Definition only_limit_of (S : filters) : filters :=
  {| event_type := None; repo := None; date_from := None; limit := limit S |}.

Definition without_limit (S : filters) : filters :=
  {| event_type := event_type S; repo := repo S;
     date_from := date_from S; limit := None |}.

(** [S] cut down to the two filters that run before the date filter. *)
Definition type_and_repo (S : filters) : filters :=
  {| event_type := event_type S; repo := repo S;
     date_from := None; limit := None |}.

(** A JSON value that is not a string. *)
Definition not_a_string (v : json) : Prop :=
  match v with
  | JStr _ => False
  | _ => True
  end.

(** An exception of the two kinds a malformed record can cause. *)
Definition attribute_or_type (e : exn) : Prop :=
  e = AttributeError \/ e = TypeError.

Definition raises_only_attribute_or_type {A : Type} (r : result A) : Prop :=
  match r with
  | Ok _ => True
  | Raise e => attribute_or_type e
  end.

(** A record [description] can describe: its [type] is a string, its
    [repo] an object if present, its [payload] an object if present,
    whose [commits] is a list and whose [action] is a string if present. *)
Definition describable (e : json) : Prop :=
  exists fields c,
    e = JObj fields /\
    assoc "type" fields = Some (JStr c) /\
    (assoc "repo" fields = None \/
     exists repo_fields, assoc "repo" fields = Some (JObj repo_fields)) /\
    (assoc "payload" fields = None \/
     exists payload_fields,
       assoc "payload" fields = Some (JObj payload_fields) /\
       (assoc "commits" payload_fields = None \/
        exists l, assoc "commits" payload_fields = Some (JArr l)) /\
       (assoc "action" payload_fields = None \/
        exists a, assoc "action" payload_fields = Some (JStr a))).

(** A record whose [created_at] is absent or a string. *)
Definition created_at_absent_or_string (e : json) : Prop :=
  exists fields,
    e = JObj fields /\
    (assoc "created_at" fields = None \/
     exists s, assoc "created_at" fields = Some (JStr s)).

(** A filter summary is printed: a category, a repository substring or
    a date is set. *)
Definition summary_shown (f : filters) : bool :=
  match truthy_str (event_type f), truthy_str (repo f), date_from f with
  | None, None, None => false
  | _, _, _ => true
  end.

(** The parts of the filter summary, in the order they are shown. *)
Definition summary_parts (strftime_ymd : datetime -> string) (f : filters)
  : list string :=
  app (match truthy_str (event_type f) with
       | Some t => ["Type: " ++ get_friendly_event_name t]
       | None => []
       end)
      (app (match truthy_str (repo f) with
            | Some r => ["Repo: " ++ r]
            | None => []
            end)
           (match date_from f with
            | Some d => ["Since: " ++ strftime_ymd d]
            | None => []
            end)).

(** The texts [display_activity] gives to [print] before those of the
    events, for [count] events: a title that opens with a line feed, the
    filter summary if there is one, and a rule of 60 hyphens. *)
Definition header_texts (strftime_ymd : datetime -> string) (count : nat)
           (f : filters) : list string :=
  (newline ++ "Recent Activity (" ++ Str.of_Z (Z.of_nat count) ++ " events)")
  :: app (if summary_shown f
          then ["Filters: " ++ join ", " (summary_parts strftime_ymd f)]
          else [])
         [repeat_string "-" 60].

(** A record whose [created_at] is [null]. *)
Definition null_dated_event : json :=
  JObj [("type", JStr "ForkEvent"); ("created_at", JNull)].

(** A record whose repository name is [null]. *)
Definition null_named_event : json :=
  JObj [("type", JStr "WatchEvent");
        ("repo", JObj [("name", JNull)]);
        ("created_at", JStr "2024-01-14T10:00:00Z")].

(** ** Facts about the list comprehensions *)

Section FilterFacts.

Context {A : Type}.
Variable p : A -> result bool.



Lemma filter_r_In (l r : list A) (x : A) :
  filter_r p l = Ok r -> In x r -> In x l /\ p x = Ok true.
Proof.
  revert r. induction l as [|y l IH]; simpl; intros r H Hin.
  - inversion H; subst. destruct Hin.
  - destruct (p y) as [b|] eqn:Hy; [|discriminate].
    destruct (filter_r p l) as [r'|]; [|discriminate].
    inversion H; subst. destruct b.
    + destruct Hin as [->|Hin]; [now split; [left|]|].
      destruct (IH r' eq_refl Hin); split; [now right|assumption].
    + destruct (IH r' eq_refl Hin); split; [now right|assumption].
Qed.

Lemma filter_r_id (l : list A) :
  (forall x, In x l -> p x = Ok true) -> filter_r p l = Ok l.
Proof.
  induction l as [|x l IH]; simpl; intros H; [reflexivity|].
  rewrite (H x (or_introl eq_refl)), IH; [reflexivity|].
  intros; apply H; now right.
Qed.

End FilterFacts.







Lemma slice_to_firstn {A : Type} (l : list A) (n : Z) :
  exists k, slice_to l n = firstn k l.
Proof. unfold slice_to; destruct (n <? 0); eauto. Qed.

(** ** Facts about [filter_events] *)

Lemma filter_events_stages (E : list json) (S : filters) :
  filter_events E S =
  rbind (stage (type_stage S) E) (fun E1 =>
  rbind (stage (repo_stage S) E1) (fun E2 =>
  rbind (stage (date_stage S) E2) (fun E3 =>
  Ok (limit_step S E3)))).
Proof.
  unfold filter_events, type_stage, repo_stage, date_stage, limit_step.
  destruct (truthy_str (event_type S)), (truthy_str (repo S)),
    (date_from S), (truthy_int (limit S)); reflexivity.
Qed.











Lemma stage_sub (o : option (json -> result bool)) (l r : list json) (x : json) :
  stage o l = Ok r -> In x r -> In x l.
Proof.
  destruct o as [p|]; simpl.
  - intros H Hin. now destruct (filter_r_In p l r x H Hin).
  - now intros [= <-].
Qed.

Lemma stage_passed (o : option (json -> result bool)) (l r : list json) (x : json) :
  stage o l = Ok r -> In x r ->
  match o with Some p => p x = Ok true | None => True end.
Proof.
  destruct o as [p|]; simpl; [|trivial].
  intros H Hin. now destruct (filter_r_In p l r x H Hin).
Qed.

Lemma stage_id (o : option (json -> result bool)) (l : list json) :
  (forall x, In x l -> match o with Some p => p x = Ok true | None => True end) ->
  stage o l = Ok l.
Proof.
  destruct o as [p|]; simpl; [apply filter_r_id|reflexivity].
Qed.

Lemma strptime_iso_raises (s : string) (e : exn) :
  Datetime.strptime_iso s = Raise e -> e = ValueError.
Proof.
  unfold Datetime.strptime_iso, Datetime.fields, Datetime.make.
  destruct (Datetime.match_items Datetime.format_iso s) as [[groups rest]|];
    [|now intros [= <-]].
  destruct rest; [|now intros [= <-]].
  destruct (map (Datetime.group_value 0) groups) as [|y [|mo [|d [|h [|mi [|se [|]]]]]]];
    try (now intros [= <-]).
  match goal with |- context [if ?c then _ else _] => destruct c end;
    [discriminate|now intros [= <-]].
Qed.

Lemma parse_event_date_str (fields : list (string * json)) (s : string) :
  assoc "created_at" fields = Some (JStr s) ->
  parse_event_date (JObj fields) =
  match Datetime.strptime_iso s with
  | Ok d => Ok d
  | Raise _ => Ok Datetime.min
  end.
Proof.
  intros H. unfold parse_event_date, py_get. rewrite H. simpl.
  destruct (Datetime.strptime_iso s) eqn:Hs; [reflexivity|].
  now rewrite (strptime_iso_raises s e Hs).
Qed.

Lemma parse_event_date_missing (fields : list (string * json)) :
  assoc "created_at" fields = None ->
  parse_event_date (JObj fields) = Ok Datetime.min.
Proof.
  intros H. unfold parse_event_date, py_get. rewrite H. reflexivity.
Qed.



Lemma well_typed_parse_event_date (x : json) :
  well_typed x -> exists d, parse_event_date x = Ok d.
Proof.
  intros (fields & -> & _ & [H|(s & H)]).
  - rewrite (parse_event_date_missing _ H); eauto.
  - rewrite (parse_event_date_str _ _ H).
    destruct (Datetime.strptime_iso s); eauto.
Qed.




Lemma limit_step_firstn (S : filters) (l : list json) :
  exists n, limit_step S l = firstn n l.
Proof.
  unfold limit_step. destruct (truthy_int (limit S)).
  - apply slice_to_firstn.
  - exists (List.length l). now rewrite firstn_all.
Qed.



(** ** The limit *)

Lemma only_limit_stages (E : list json) (N : Z) :
  filter_events E (only_limit N) = Ok (limit_step (only_limit N) E).
Proof. rewrite filter_events_stages. reflexivity. Qed.

(** A positive limit alone keeps the first [min N |E|] records. *)
Lemma only_limit_positive (E : list json) (N : Z) :
  0 < N ->
  filter_events E (only_limit N) = Ok (firstn (Z.to_nat N) E) /\
  Z.of_nat (List.length (firstn (Z.to_nat N) E))
  = Z.min N (Z.of_nat (List.length E)).
Proof.
  intros HN. rewrite only_limit_stages. unfold limit_step, slice_to; simpl.
  destruct N as [|n|n]; try lia. simpl. split; [reflexivity|].
  rewrite length_firstn. lia.
Qed.

(** A negative limit alone drops the last [-N] records. *)
Lemma only_limit_negative (E : list json) (N : Z) :
  N < 0 ->
  filter_events E (only_limit N)
  = Ok (firstn (List.length E - Z.to_nat (- N)) E).
Proof.
  intros HN. rewrite only_limit_stages. unfold limit_step, slice_to; simpl.
  destruct N as [|n|n]; try lia. simpl. do 2 f_equal. lia.
Qed.

(** C1.  With [limit = 0] as the only filter, [filter_events] returns
    every record: [filters.get('limit')] is false for 0, and the slice is
    not taken.  The specification asks for the empty sequence. *)
Theorem limit_zero_keeps_everything :
  (forall E : list json, filter_events E (only_limit 0) = Ok E) /\
  filter_events [push_event] (only_limit 0) = Ok [push_event] /\
  [push_event] <> ([] : list json).
Proof.
  split; [intros E; apply only_limit_stages|].
  split; [reflexivity|discriminate].
Qed.

(** C3.  With [limit = -1] two records are cut down to the first one,
    which is neither the empty sequence nor the whole sequence. *)
Theorem negative_limit_drops_last :
  filter_events [push_event; watch_event] (only_limit (-1)) = Ok [push_event]
  /\ [push_event] <> ([] : list json)
  /\ [push_event] <> [push_event; watch_event].
Proof. split; [reflexivity|split; discriminate]. Qed.

(** C4.  With [limit = -1] a second application of [filter_events]
    shortens the result of the first once more. *)
Theorem negative_limit_not_idempotent :
  filter_events sample_events (only_limit (-1)) = Ok [push_event; watch_event]
  /\ filter_events [push_event; watch_event] (only_limit (-1)) = Ok [push_event]
  /\ [push_event] <> [push_event; watch_event].
Proof. split; [reflexivity|split; [reflexivity|discriminate]]. Qed.

Lemma In_firstn {A : Type} (n : nat) (l : list A) (x : A) :
  In x (firstn n l) -> In x l.
Proof.
  revert n; induction l as [|y l IH]; intros [|n]; simpl; try tauto.
  intros [->|H]; [now left|right; eauto].
Qed.

Lemma limit_step_idempotent (S : filters) (l : list json) :
  (forall n, limit S = Some n -> 0 <= n) ->
  limit_step S (limit_step S l) = limit_step S l.
Proof.
  intros Hn. unfold limit_step.
  destruct (limit S) as [n|] eqn:Hl; simpl; [|reflexivity].
  specialize (Hn n eq_refl). destruct n as [|n|n]; try lia; [reflexivity|].
  unfold slice_to; simpl. rewrite firstn_firstn. f_equal. lia.
Qed.

(** Away from negative limits [filter_events] is idempotent. *)
Lemma filter_events_idempotent (E F : list json) (S : filters) :
  (forall n, limit S = Some n -> 0 <= n) ->
  filter_events E S = Ok F -> filter_events F S = Ok F.
Proof.
  intros Hn. rewrite !filter_events_stages.
  destruct (stage (type_stage S) E) as [E1|] eqn:H1; simpl; [|discriminate].
  destruct (stage (repo_stage S) E1) as [E2|] eqn:H2; simpl; [|discriminate].
  destruct (stage (date_stage S) E2) as [E3|] eqn:H3; simpl; [|discriminate].
  intros [= <-].
  assert (In3 : forall x, In x (limit_step S E3) -> In x E3).
  { intros x. destruct (limit_step_firstn S E3) as [k ->]. apply In_firstn. }
  assert (In2 : forall x, In x (limit_step S E3) -> In x E2)
    by (intros x Hx; eapply stage_sub; eauto).
  assert (In1 : forall x, In x (limit_step S E3) -> In x E1)
    by (intros x Hx; eapply stage_sub; eauto).
  rewrite (stage_id (type_stage S)); simpl.
  2:{ intros x Hx. eapply stage_passed; eauto. }
  rewrite (stage_id (repo_stage S)); simpl.
  2:{ intros x Hx. eapply stage_passed; eauto. }
  rewrite (stage_id (date_stage S)); simpl.
  2:{ intros x Hx. eapply stage_passed; eauto. }
  now rewrite limit_step_idempotent.
Qed.

(** ** Timestamps *)

Lemma match_seq_length (classes : list (ascii -> bool)) (s m rest : string) :
  Datetime.match_seq classes s = Some (m, rest) ->
  String.length s = (List.length classes + String.length rest)%nat.
Proof.
  revert s m. induction classes as [|cl classes IH]; simpl; intros s m.
  - now intros [= _ ->].
  - destruct s as [|c s]; [discriminate|].
    destruct (cl c); [|discriminate].
    destruct (Datetime.match_seq classes s) as [[m' rest']|] eqn:H; [|discriminate].
    intros [= _ <-]. simpl. now rewrite (IH s m' H).
Qed.

Lemma match_items_length (items : list Datetime.item) (s : string)
      (gs : list string) (r : string) :
  Datetime.match_items items s = Some (gs, r) ->
  (format_min items + String.length r <= String.length s
   <= format_max items + String.length r)%nat.
Proof.
  revert s gs. induction items as [|it items IH]; intros s gs.
  - simpl. intros [= _ ->]. lia.
  - destruct it as [x|alts].
    + simpl. destruct s as [|c s]; [discriminate|].
      destruct (Ascii.eqb _ _); [|discriminate].
      intros H. apply IH in H. simpl. lia.
    + change (format_min (Datetime.Group alts :: items))
        with (item_min (Datetime.Group alts) + format_min items)%nat.
      change (format_max (Datetime.Group alts :: items))
        with (item_max (Datetime.Group alts) + format_max items)%nat.
      simpl. induction alts as [|alt alts IHalts]; [discriminate|].
      simpl.
      destruct (Datetime.match_seq alt s) as [[g rest]|] eqn:Hseq.
      * destruct (Datetime.match_items items rest) as [[gs' r']|] eqn:Hrest.
        -- intros [= _ <-]. apply IH in Hrest.
           apply match_seq_length in Hseq. lia.
        -- intros H. apply IHalts in H. lia.
      * intros H. apply IHalts in H. lia.
Qed.

(** A string that [strptime] accepts for ['%Y-%m-%dT%H:%M:%SZ'] has 15
    to 20 characters. *)
Lemma strptime_iso_length (s : string) (d : datetime) :
  Datetime.strptime_iso s = Ok d ->
  (15 <= String.length s <= 20)%nat.
Proof.
  unfold Datetime.strptime_iso, Datetime.fields.
  destruct (Datetime.match_items Datetime.format_iso s) as [[gs r]|] eqn:H;
    [|discriminate].
  destruct r; [|discriminate].
  intros _. apply match_items_length in H. simpl in H. lia.
Qed.

Lemma filter_events_not_before (E F : list json) (S : filters) (t : datetime)
      (x : json) :
  date_from S = Some t ->
  filter_events E S = Ok F -> In x F -> not_before t x = Ok true.
Proof.
  intros Ht. rewrite filter_events_stages.
  destruct (stage (type_stage S) E) as [E1|] eqn:H1; simpl; [|discriminate].
  destruct (stage (repo_stage S) E1) as [E2|] eqn:H2; simpl; [|discriminate].
  destruct (stage (date_stage S) E2) as [E3|] eqn:H3; simpl; [|discriminate].
  intros [= <-] Hin.
  assert (Hx : In x E3).
  { destruct (limit_step_firstn S E3) as [k Hk]. rewrite Hk in Hin.
    eapply In_firstn; eauto. }
  pose proof (stage_passed _ _ _ _ H3 Hx) as Hp.
  unfold date_stage in Hp. now rewrite Ht in Hp.
Qed.

(** C7, as amended.  A record whose [created_at] is missing, or is a
    string that [strptime] rejects for ['%Y-%m-%dT%H:%M:%SZ'] (as it
    does every string of fewer than 15 or more than 20 characters), is
    given the minimum timestamp, and a filter whose date bound is above
    the minimum excludes it. *)
Theorem rejected_date_is_min_and_excluded (fields : list (string * json)) :
  (assoc "created_at" fields = None \/
   exists s, assoc "created_at" fields = Some (JStr s) /\
             (Datetime.strptime_iso s = Raise ValueError \/
              (String.length s < 15)%nat \/ (20 < String.length s)%nat)) ->
  parse_event_date (JObj fields) = Ok Datetime.min /\
  forall (E F : list json) (S : filters) (t : datetime),
    date_from S = Some t -> Datetime.min < t ->
    filter_events E S = Ok F -> ~ In (JObj fields) F.
Proof.
  intros H.
  assert (Hmin : parse_event_date (JObj fields) = Ok Datetime.min).
  { destruct H as [H|(s & H & Hs)].
    - now apply parse_event_date_missing.
    - rewrite (parse_event_date_str _ _ H).
      destruct (Datetime.strptime_iso s) as [d|e] eqn:Hd; [|reflexivity].
      apply strptime_iso_length in Hd.
      destruct Hs as [Hs|Hs]; [discriminate|lia]. }
  split; [assumption|].
  intros E F S t Ht Hlt HF Hin.
  pose proof (filter_events_not_before E F S t _ Ht HF Hin) as Hnb.
  unfold not_before in Hnb. rewrite Hmin in Hnb. simpl in Hnb.
  injection Hnb as Hnb. apply Z.leb_le in Hnb. lia.
Qed.

Lemma rejected_date_is_min_and_excluded_witness :
  parse_event_date undated_event = Ok Datetime.min /\
  filter_events [watch_event; undated_event] (since 1) = Ok [watch_event] /\
  ~ In undated_event [watch_event].
Proof.
  destruct (rejected_date_is_min_and_excluded
              [("type", JStr "ForkEvent"); ("repo", JObj [("name", JStr "x")])]
              (or_introl eq_refl)) as [Hmin Hex].
  split; [exact Hmin|]. split; [vm_compute; reflexivity|].
  apply (Hex [watch_event; undated_event] [watch_event] (since 1) 1 eq_refl).
  - reflexivity.
  - vm_compute; reflexivity.
Defined.

(** C7 as stated fails: a [created_at] that is not of the exact form can
    still be parsed, to a timestamp that is not the minimum, and the
    record then passes a date filter above the minimum. *)
Lemma loose_date_is_parsed :
  exact_form "2024-1-5T1:2:3Z" = false /\
  parse_event_date loosely_dated_event = Ok 63840013323000000 /\
  63840013323000000 <> Datetime.min /\
  filter_events [loosely_dated_event] (since 1) = Ok [loosely_dated_event].
Proof.
  split; [reflexivity|]. split; [vm_compute; reflexivity|].
  split; [discriminate|vm_compute; reflexivity].
Qed.

(** ** Descriptions *)

Lemma repository_text_get (fields : list (string * json)) (name : string) :
  repository_text fields = Some name ->
  exists r, py_get (JObj fields) "repo" (JObj []) = Ok r /\
            py_get r "name" (JStr "unknown repo") = Ok (JStr name).
Proof.
  unfold repository_text, py_get.
  destruct (assoc "repo" fields) as [r|].
  - destruct r; try discriminate.
    destruct (assoc "name" fields0) as [n|] eqn:Hn.
    + destruct n; try discriminate. intros [= ->].
      eexists; split; [reflexivity|]. simpl. now rewrite Hn.
    + intros [= <-]. eexists; split; [reflexivity|]. simpl. now rewrite Hn.
  - intros [= <-]. eexists; split; reflexivity.
Qed.

Lemma unrecognized_description (repr : json -> string)
      (fields : list (string * json)) (c name : string) :
  assoc "type" fields = Some (JStr c) ->
  recognized c = false ->
  repository_text fields = Some name ->
  description repr (JObj fields)
  = Ok (Str.replace "Event" EmptyString c ++ " in " ++ name).
Proof.
  intros Ht Hc Hn.
  destruct (repository_text_get fields name Hn) as (r & Hr & Hname).
  unfold description.
  replace (py_get (JObj fields) "type" JNull) with (Ok (JStr c))
    by (unfold py_get; now rewrite Ht).
  cbn [rbind]. rewrite Hr. cbn [rbind]. rewrite Hname. cbn [rbind].
  unfold recognized in Hc. cbn [existsb EVENT_TYPE_MAP snd] in Hc.
  repeat (apply orb_false_elim in Hc; destruct Hc as [? Hc]).
  cbn [py_eq_str].
  repeat match goal with
         | H : String.eqb ?t c = false |- _ =>
             rewrite String.eqb_sym in H; rewrite H; clear H
         end.
  reflexivity.
Qed.

(** The golden cases of the formatter, and the two aliases of
    ["WatchEvent"]. *)
Example format_push_event (utcnow : nat -> datetime) (repr : json -> string)
        (w : world) :
  format_event utcnow repr push_event false w
  = (Ok "Pushed 3 commit(s) to octo/repo", w).
Proof. reflexivity. Qed.

Example format_watch_event (utcnow : nat -> datetime) (repr : json -> string)
        (w : world) :
  format_event utcnow repr watch_event false w = (Ok "Starred octo/repo", w).
Proof. reflexivity. Qed.

Example star_and_watch :
  assoc "star" EVENT_TYPE_MAP = Some "WatchEvent" /\
  assoc "watch" EVENT_TYPE_MAP = Some "WatchEvent".
Proof. split; reflexivity. Qed.

(** C8, as amended.  For a record whose category is a string outside the
    category table, [format_event] without the date returns the category
    with every occurrence of ["Event"] removed, then [" in "], then the
    repository, which is ["unknown repo"] when absent. *)
Theorem unrecognized_category_format (utcnow : nat -> datetime)
        (repr : json -> string) (w : world)
        (fields : list (string * json)) (c name : string) :
  assoc "type" fields = Some (JStr c) ->
  recognized c = false ->
  repository_text fields = Some name ->
  format_event utcnow repr (JObj fields) false w
  = (Ok (Str.replace "Event" EmptyString c ++ " in " ++ name), w).
Proof.
  intros Ht Hc Hn. unfold format_event, mbind, lift.
  now rewrite (unrecognized_description repr fields c name Ht Hc Hn).
Qed.

Lemma unrecognized_category_format_witness :
  format_event sample_clock sample_repr foo_event false initial_world
  = (Ok "Foo in x", initial_world).
Proof.
  exact (unrecognized_category_format sample_clock sample_repr initial_world
           [("type", JStr "FooEvent"); ("repo", JObj [("name", JStr "x")])]
           "FooEvent" "x" eq_refl eq_refl eq_refl).
Defined.

(** C8 as stated fails: ["Event"] is removed wherever it occurs, not
    only at the end of the category. *)
Lemma leading_Event_is_removed :
  recognized "EventLogEvent" = false /\
  format_event sample_clock sample_repr event_log_event false initial_world
  = (Ok "Log in x", initial_world) /\
  without_trailing_Event "EventLogEvent" ++ " in " ++ "x" = "EventLog in x" /\
  "Log in x" <> "EventLog in x".
Proof.
  split; [reflexivity|]. split; [reflexivity|].
  split; [reflexivity|discriminate].
Qed.

(** C2.  A record without a [type] makes [format_event] raise: the
    lookup gives [None], no branch of the chain matches, and the last one
    calls [replace] on [None].  The specification asks for a string. *)
Theorem format_event_without_type_raises (utcnow : nat -> datetime)
        (repr : json -> string) (show_date : bool) (w : world) :
  format_event utcnow repr untyped_event show_date w = (Raise AttributeError, w)
  /\ format_event utcnow repr (JObj []) show_date w = (Raise AttributeError, w).
Proof. split; reflexivity. Qed.

(** The same for every record without a [type]. *)
Lemma description_without_type (repr : json -> string)
      (fields : list (string * json)) :
  assoc "type" fields = None ->
  description repr (JObj fields) = Raise AttributeError.
Proof.
  intros Ht. unfold description, py_get. rewrite Ht. cbn [rbind].
  destruct (assoc "repo" fields) as [r|]; cbn [rbind].
  - destruct r; try reflexivity.
    destruct (assoc "name" fields0); reflexivity.
  - reflexivity.
Qed.

(** ** Relative ages *)






(** ** Facts about floats *)

(** The model on floats Python shows.  One microsecond is [1e-06], the
    float 4722366482869645 * 2^-72.  17182367999.999998 seconds are held
    as [17182367999.999996], which is 4504254676991999 * 2^-18, and their
    quotient by 2592000 as [6628.999999999998], which is
    3644331290263551 * 2^-39.  63840959999.999999 seconds are held as
    [63840960000.0], and their quotient by 2592000 is [24630.0]. *)
Example float_samples :
  total_seconds 1 = 4722366482869645 * 2 ^ 8 /\
  total_seconds 17182367999999998 = 4504254676991999 * 2 ^ 62 /\
  Float.div_int (total_seconds 17182367999999998) 2592000
  = 3644331290263551 * 2 ^ 41 /\
  total_seconds 63840959999999999 = 63840960000 * Float.one /\
  Float.div_int (total_seconds 63840959999999999) 2592000
  = 24630 * Float.one.
Proof. repeat split; vm_compute; reflexivity. Qed.

Lemma rne_unfold (n d : Z) :
  Float.rne n d =
  if 2 * (n mod d) <? d then n / d
  else if d <? 2 * (n mod d) then n / d + 1
  else if Z.even (n / d) then n / d else n / d + 1.
Proof.
  unfold Float.rne, Z.div, Z.modulo. now destruct (Z.div_eucl n d).
Qed.

Lemma rne_near (n d : Z) :
  Float.rne n d = n / d \/ Float.rne n d = n / d + 1.
Proof.
  rewrite rne_unfold.
  destruct (2 * (n mod d) <? d); [now left|].
  destruct (d <? 2 * (n mod d)); [now right|].
  destruct (Z.even (n / d)); auto.
Qed.

Lemma rne_exact (n d : Z) : 0 < d -> n mod d = 0 -> Float.rne n d = n / d.
Proof.
  intros Hd H. rewrite rne_unfold, H.
  destruct (Z.ltb_spec (2 * 0) d); [reflexivity|lia].
Qed.

Lemma rne_mono (n n' d : Z) :
  0 < d -> n <= n' -> Float.rne n d <= Float.rne n' d.
Proof.
  intros Hd Hn.
  pose proof (Z.div_le_mono n n' d Hd Hn) as Hq.
  destruct (Z.eq_dec (n / d) (n' / d)) as [E|E].
  - assert (Hr : n mod d <= n' mod d).
    { rewrite (Z.div_mod n d), (Z.div_mod n' d) in Hn by lia.
      rewrite E in Hn. lia. }
    rewrite !rne_unfold, <- E.
    destruct (Z.ltb_spec (2 * (n mod d)) d), (Z.ltb_spec (2 * (n' mod d)) d),
      (Z.ltb_spec d (2 * (n mod d))), (Z.ltb_spec d (2 * (n' mod d)));
      destruct (Z.even (n / d)); lia.
  - destruct (rne_near n d) as [->| ->], (rne_near n' d) as [->| ->]; lia.
Qed.

Lemma rne_le (n d B : Z) : 0 < d -> n < d * B -> Float.rne n d <= B.
Proof.
  intros Hd H. assert (n / d < B) by (apply Z.div_lt_upper_bound; lia).
  destruct (rne_near n d) as [->| ->]; lia.
Qed.

Lemma rne_ge (n d B : Z) : 0 < d -> d * B <= n -> B <= Float.rne n d.
Proof.
  intros Hd H. assert (B <= n / d) by (apply Z.div_le_lower_bound; lia).
  destruct (rne_near n d) as [->| ->]; lia.
Qed.

Lemma round53_nonneg (n d : Z) : 0 < d -> 0 <= n -> 0 <= Float.round53 n d.
Proof.
  intros Hd Hn. unfold Float.round53.
  set (e := Z.max 0 (Z.log2 (n / d) - 52)).
  assert (0 < 2 ^ e) by (apply Z.pow_pos_nonneg; lia).
  apply Z.mul_nonneg_nonneg; [|lia].
  apply rne_ge; nia.
Qed.

Lemma below_next_power (n d : Z) :
  0 < d -> 0 <= n -> n < d * 2 ^ (Z.log2 (n / d) + 1).
Proof.
  intros Hd Hn.
  assert (Hq : 0 <= n / d) by (apply Z.div_pos; lia).
  assert (Hm : n < d * (n / d + 1)).
  { pose proof (Z.div_mod n d) as E. pose proof (Z.mod_pos_bound n d Hd). lia. }
  assert (Hp : n / d + 1 <= 2 ^ (Z.log2 (n / d) + 1)).
  { destruct (Z.eq_dec (n / d) 0) as [->|Hz]; [simpl; lia|].
    pose proof (Z.log2_spec (n / d)). lia. }
  nia.
Qed.

Lemma round53_mono (n n' d : Z) :
  0 < d -> 0 <= n <= n' -> Float.round53 n d <= Float.round53 n' d.
Proof.
  intros Hd [Hn Hle]. unfold Float.round53.
  assert (HQ : n / d <= n' / d) by (apply Z.div_le_mono; lia).
  assert (HQ0 : 0 <= n / d) by (apply Z.div_pos; lia).
  pose proof (Z.log2_le_mono _ _ HQ) as HL.
  set (L := Z.log2 (n / d)) in *. set (L' := Z.log2 (n' / d)) in *.
  set (e := Z.max 0 (L - 52)). set (e' := Z.max 0 (L' - 52)).
  assert (He : 0 <= e <= e') by (unfold e, e'; lia).
  assert (Hp : 0 < 2 ^ e) by (apply Z.pow_pos_nonneg; lia).
  assert (Hp' : 0 < 2 ^ e') by (apply Z.pow_pos_nonneg; lia).
  destruct (Z.eq_dec e e') as [E|E].
  - rewrite <- E. apply Z.mul_le_mono_nonneg_r; [lia|].
    apply rne_mono; [nia|lia].
  - assert (Hup : Float.rne n (d * 2 ^ e) <= 2 ^ 53).
    { apply rne_le; [nia|].
      pose proof (below_next_power n d Hd Hn) as Hb. fold L in Hb.
      assert (2 ^ (L + 1) <= 2 ^ (e + 53))
        by (apply Z.pow_le_mono_r; unfold e; lia).
      rewrite (Z.pow_add_r 2 e 53) in H by lia.
      apply Z.lt_le_trans with (d * 2 ^ (L + 1)); [exact Hb|].
      rewrite <- Z.mul_assoc. apply Z.mul_le_mono_nonneg_l; lia. }
    assert (Hlo : 2 ^ 52 <= Float.rne n' (d * 2 ^ e')).
    { apply rne_ge; [nia|].
      assert (HL' : L' = e' + 52) by (unfold e, e' in *; lia).
      assert (Hpos : 0 < n' / d).
      { destruct (Z.eq_dec (n' / d) 0) as [Hz|Hz]; [|lia].
        unfold L' in HL'. rewrite Hz in HL'. simpl in HL'. lia. }
      pose proof (Z.log2_spec (n' / d) Hpos) as [Hs _]. fold L' in Hs.
      rewrite HL', (Z.pow_add_r 2 e' 52) in Hs by lia.
      assert (Hm : d * (n' / d) <= n') by (apply Z.mul_div_le; lia).
      apply Z.le_trans with (d * (n' / d)); [|exact Hm].
      rewrite <- Z.mul_assoc. apply Z.mul_le_mono_nonneg_l; lia. }
    assert (Hee : 2 ^ 53 * 2 ^ e <= 2 ^ 52 * 2 ^ e').
    { assert (2 ^ (e + 1) <= 2 ^ e') by (apply Z.pow_le_mono_r; lia).
      rewrite (Z.pow_add_r 2 e 1) in H by lia.
      change (2 ^ 53) with (2 ^ 52 * 2). change (2 ^ 1) with 2 in H. nia. }
    nia.
Qed.

Lemma round53_exact (c d : Z) :
  0 < d -> 0 < c < 2 ^ 53 ->
  Float.round53 (c * Float.one * d) d = c * Float.one.
Proof.
  intros Hd [Hc Hc53]. unfold Float.round53, Float.one, Float.unit_bits.
  rewrite Z.div_mul by lia.
  rewrite Z.log2_mul_pow2 by lia.
  assert (HL : 0 <= Z.log2 c <= 52).
  { split; [apply Z.log2_nonneg|]. apply Z.lt_succ_r.
    apply Z.log2_lt_pow2; [lia|exact Hc53]. }
  set (e := Z.max 0 (80 + Z.log2 c - 52)).
  assert (He : 0 <= e <= 80) by (unfold e; lia).
  assert (E80 : 2 ^ 80 = 2 ^ (80 - e) * 2 ^ e).
  { rewrite <- Z.pow_add_r by lia. f_equal. lia. }
  assert (Hp : 0 < 2 ^ e) by (apply Z.pow_pos_nonneg; lia).
  replace (c * 2 ^ 80 * d) with (c * 2 ^ (80 - e) * (d * 2 ^ e))
    by (rewrite E80; ring).
  rewrite rne_exact; [|nia|apply Z.mod_mul; nia].
  rewrite Z.div_mul by nia. rewrite E80. symmetry. apply Z.mul_assoc.
Qed.

Lemma of_quotient_mono (a a' b : Z) :
  0 < b -> a <= a' -> Float.of_quotient a b <= Float.of_quotient a' b.
Proof.
  intros Hb H. unfold Float.of_quotient.
  assert (Ho : 0 < Float.one) by reflexivity.
  destruct (Z.ltb_spec a 0), (Z.ltb_spec a' 0); try lia.
  - apply Z.opp_le_mono. rewrite !Z.opp_involutive.
    apply round53_mono; [lia|]. nia.
  - pose proof (round53_nonneg (- a * Float.one) b Hb).
    pose proof (round53_nonneg (a' * Float.one) b Hb). nia.
  - apply round53_mono; [lia|]. nia.
Qed.

Lemma div_int_mono (x x' k : Z) :
  0 < k -> x <= x' -> Float.div_int x k <= Float.div_int x' k.
Proof.
  intros Hk H. unfold Float.div_int.
  destruct (Z.ltb_spec x 0), (Z.ltb_spec x' 0); try lia.
  - apply Z.opp_le_mono. rewrite !Z.opp_involutive.
    apply round53_mono; lia.
  - pose proof (round53_nonneg (- x) k Hk).
    pose proof (round53_nonneg x' k Hk). lia.
  - apply round53_mono; lia.
Qed.

Lemma float_count_mono (k us us' : Z) :
  0 < k -> us <= us' -> float_count k us <= float_count k us'.
Proof.
  intros Hk H. unfold float_count, Float.to_int, total_seconds.
  apply Z.quot_le_mono; [reflexivity|].
  apply div_int_mono; [assumption|].
  apply of_quotient_mono; [reflexivity|assumption].
Qed.


Lemma float_count_exact (k N : Z) :
  0 < k -> 0 < N -> N * k < 2 ^ 53 ->
  float_count k (seconds (N * k)) = N.
Proof.
  intros Hk HN Hb.
  unfold float_count, total_seconds, seconds, Float.of_quotient.
  set (s := Datetime.us_per_second). assert (Hs : 0 < s) by reflexivity.
  destruct (Z.ltb_spec (N * k * s) 0); [nia|].
  replace (N * k * s * Float.one) with (N * k * Float.one * s) by ring.
  rewrite round53_exact by nia.
  unfold Float.div_int.
  assert (Ho : 0 < Float.one) by reflexivity.
  destruct (Z.ltb_spec (N * k * Float.one) 0); [nia|].
  replace (N * k * Float.one) with (N * Float.one * k) by ring.
  rewrite round53_exact by nia.
  unfold Float.to_int. apply Z.quot_mul. lia.
Qed.

(** A comparison of [total_seconds] with a whole number of seconds is the
    comparison of the microseconds, once it is so on both sides of the
    threshold. *)
Lemma total_seconds_lt (c us : Z) :
  Float.lt_int (total_seconds (seconds c - 1)) c = true ->
  Float.lt_int (total_seconds (seconds c)) c = false ->
  Float.lt_int (total_seconds us) c = (us <? seconds c).
Proof.
  unfold Float.lt_int, total_seconds. intros Hlo Hhi.
  apply Z.ltb_lt in Hlo. apply Z.ltb_ge in Hhi.
  assert (Hs : 0 < Datetime.us_per_second) by reflexivity.
  destruct (Z.ltb_spec us (seconds c)).
  - apply Z.ltb_lt.
    pose proof (of_quotient_mono us (seconds c - 1) _ Hs). lia.
  - apply Z.ltb_ge.
    pose proof (of_quotient_mono (seconds c) us _ Hs). lia.
Qed.

Lemma uppers_ok_spec (k : Z) (n : nat) :
  forall N0 N, uppers_ok k n N0 = true -> N0 <= N < N0 + Z.of_nat n ->
  float_count k (seconds ((N + 1) * k) - 1) = N.
Proof.
  induction n as [|n IH]; intros N0 N H HN; [lia|].
  simpl in H. apply andb_prop in H. destruct H as [H1 H2].
  destruct (Z.eq_dec N N0) as [->|Hne].
  - now apply Z.eqb_eq in H1.
  - apply (IH (N0 + 1)); [assumption|lia].
Qed.

(** Between two exact multiples the count is the floor, once it is so at
    the last microsecond before each multiple. *)
Lemma float_count_floor (k : Z) (n : nat) (us : Z) :
  0 < k -> (1 + Z.of_nat n) * k < 2 ^ 53 ->
  uppers_ok k n 1 = true ->
  seconds k <= us < seconds ((1 + Z.of_nat n) * k) ->
  float_count k us = us / seconds k.
Proof.
  intros Hk Hb Ht [Hlo Hhi].
  assert (HK : 0 < seconds k)
    by (unfold seconds, Datetime.us_per_second; lia).
  set (N := us / seconds k).
  assert (HN1 : 1 <= N) by (apply Z.div_le_lower_bound; lia).
  assert (HNn : N < 1 + Z.of_nat n).
  { apply Z.div_lt_upper_bound; [assumption|].
    unfold seconds in *. nia. }
  pose proof (Z.div_mod us (seconds k)) as E.
  pose proof (Z.mod_pos_bound us (seconds k) HK) as Hr.
  fold N in E.
  assert (Hup : float_count k us <= N).
  { assert (Hu : float_count k (seconds ((N + 1) * k) - 1) = N)
      by (apply (uppers_ok_spec k n 1 N Ht); lia).
    rewrite <- Hu. apply float_count_mono; [assumption|].
    unfold seconds in *. nia. }
  assert (Hdn : N <= float_count k us).
  { assert (Hl : float_count k (seconds (N * k)) = N)
      by (apply (float_count_exact k N Hk); nia).
    rewrite <- Hl. apply float_count_mono; [assumption|].
    unfold seconds in *. nia. }
  lia.
Qed.


Lemma thresholds_exact (c us : Z) :
  In c [60; 3600; 86400; 2592000] ->
  Float.lt_int (total_seconds us) c = (us <? seconds c).
Proof.
  intros H. apply total_seconds_lt;
    repeat (destruct H as [<-|H]; [vm_compute; reflexivity|]);
    contradiction.
Qed.

Lemma minutes_table : uppers_ok 60 59 1 = true.
Proof. vm_compute. reflexivity. Qed.

Lemma hours_table : uppers_ok 3600 23 1 = true.
Proof. vm_compute. reflexivity. Qed.

Lemma days_table : uppers_ok 86400 29 1 = true.
Proof. vm_compute. reflexivity. Qed.


Lemma minutes_floor (us : Z) :
  seconds 60 <= us < seconds 3600 -> float_count 60 us = us / seconds 60.
Proof.
  intros H. apply (float_count_floor 60 59); 
    [lia|reflexivity|exact minutes_table|exact H].
Qed.

Lemma hours_floor (us : Z) :
  seconds 3600 <= us < seconds 86400 ->
  float_count 3600 us = us / seconds 3600.
Proof.
  intros H. apply (float_count_floor 3600 23);
    [lia|reflexivity|exact hours_table|exact H].
Qed.

Lemma days_floor (us : Z) :
  seconds 86400 <= us < seconds 2592000 ->
  float_count 86400 us = us / seconds 86400.
Proof.
  intros H. apply (float_count_floor 86400 29);
    [lia|reflexivity|exact days_table|exact H].
Qed.


(** At [month_floor_limit] the count is one more than the floor. *)
Lemma months_at_limit :
  float_count 2592000 month_floor_limit = 6629 /\
  month_floor_limit / seconds 2592000 = 6628.
Proof. split; vm_compute; reflexivity. Qed.

(** ** Facts about [get_time_ago] *)

Lemma time_ago_cases (now date : datetime) :
  let us := now - date in
  (us < seconds 60 /\ time_ago now date = "just now") \/
  (seconds 60 <= us < seconds 3600 /\
   time_ago now date = ago_text (float_count 60 us) "minute") \/
  (seconds 3600 <= us < seconds 86400 /\
   time_ago now date = ago_text (float_count 3600 us) "hour") \/
  (seconds 86400 <= us < seconds 2592000 /\
   time_ago now date = ago_text (float_count 86400 us) "day") \/
  (seconds 2592000 <= us /\
   time_ago now date = ago_text (float_count 2592000 us) "month").
Proof.
  intros us. unfold time_ago. fold us. cbv zeta.
  rewrite !thresholds_exact by (simpl; tauto).
  destruct (Z.ltb_spec us (seconds 60)) as [H1|H1];
    [left; split; [assumption|reflexivity]|right].
  destruct (Z.ltb_spec us (seconds 3600)) as [H2|H2];
    [left; split; [lia|reflexivity]|right].
  destruct (Z.ltb_spec us (seconds 86400)) as [H3|H3];
    [left; split; [lia|reflexivity]|right].
  destruct (Z.ltb_spec us (seconds 2592000)) as [H4|H4];
    [left; split; [lia|reflexivity]|right; split; [lia|reflexivity]].
Qed.

(** The tiers with the counts that are floors of the quotient. *)
Lemma time_ago_floor_cases (now date : datetime) :
  let us := now - date in
  (us < seconds 60 /\ time_ago now date = "just now") \/
  (seconds 60 <= us < seconds 3600 /\
   time_ago now date = ago_text (us / seconds 60) "minute") \/
  (seconds 3600 <= us < seconds 86400 /\
   time_ago now date = ago_text (us / seconds 3600) "hour") \/
  (seconds 86400 <= us < seconds 2592000 /\
   time_ago now date = ago_text (us / seconds 86400) "day") \/
  (seconds 2592000 <= us /\
   time_ago now date = ago_text (float_count 2592000 us) "month").
Proof.
  intros us.
  destruct (time_ago_cases now date)
    as [[R E]|[[R E]|[[R E]|[[R E]|[R E]]]]]; fold us in R.
  - left. now split.
  - right; left. split; [exact R|]. now rewrite <- minutes_floor.
  - right; right; left. split; [exact R|]. now rewrite <- hours_floor.
  - right; right; right; left. split; [exact R|]. now rewrite <- days_floor.
  - right; right; right; right. now split.
Qed.








(** The thresholds themselves. *)
Lemma time_ago_boundaries (now date : datetime) :
  (now - date = seconds 59 -> time_ago now date = "just now") /\
  (now - date = seconds 60 -> time_ago now date = "1 minute ago") /\
  (now - date = seconds 3600 -> time_ago now date = "1 hour ago") /\
  (now - date = seconds 86400 -> time_ago now date = "1 day ago") /\
  (now - date = seconds 2592000 -> time_ago now date = "1 month ago").
Proof.
  unfold time_ago.
  repeat split; intros ->; vm_compute; reflexivity.
Qed.

(** ** Display *)

Lemma append_nil_r (s : string) : s ++ EmptyString = s.
Proof. induction s; simpl; congruence. Qed.

Lemma world_eq (out1 out2 : list string) (n1 n2 : nat) :
  out1 = out2 -> n1 = n2 ->
  {| stdout := out1; clock_reads := n1 |} = {| stdout := out2; clock_reads := n2 |}.
Proof. now intros -> ->. Qed.

Lemma format_event_ok (utcnow : nat -> datetime) (repr : json -> string)
      (with_age : bool) (e : json) (w : world) :
  formattable repr with_age e ->
  format_event utcnow repr e with_age w =
  (Ok (description_text repr e ++
       (if with_age
        then " (" ++ time_ago (utcnow (clock_reads w)) (parseTimestamp e) ++ ")"
        else EmptyString)),
   {| stdout := stdout w;
      clock_reads := if with_age then S (clock_reads w) else clock_reads w |}).
Proof.
  intros [[d Hd] Ht].
  unfold format_event, description_text, parseTimestamp, mbind, lift.
  rewrite Hd. destruct with_age.
  - destruct (Ht eq_refl) as [t ->]. reflexivity.
  - unfold mret. destruct w. now rewrite append_nil_r.
Qed.

Lemma for_each_event_lines (utcnow : nat -> datetime) (repr : json -> string)
      (with_age : bool) (events : list json) (w : world) :
  Forall (formattable repr with_age) events ->
  for_each events
    (fun event =>
       mbind (format_event utcnow repr event with_age)
             (fun formatted => print ("- " ++ formatted))) w
  = (Ok tt,
     {| stdout := (stdout w
                   ++ event_lines utcnow repr with_age (clock_reads w) events)%list;
        clock_reads := if with_age
                       then (clock_reads w + List.length events)%nat
                       else clock_reads w |}).
Proof.
  intros H. revert w. induction H as [|e events He _ IH]; intros w.
  - simpl. unfold mret. f_equal. destruct w; simpl.
    apply world_eq; [now rewrite app_nil_r|destruct with_age; lia].
  - simpl. unfold mbind at 1. unfold mbind at 1.
    rewrite (format_event_ok _ _ _ _ _ He). unfold print at 1. simpl.
    rewrite IH. simpl. f_equal. apply world_eq.
    + now rewrite <- app_assoc.
    + destruct with_age; lia.
Qed.

(** C10.  For a non-empty list of events [display_activity] prints, after
    its header, one line per event, in order; each line carries the
    relative age between brackets exactly when a minimum-date filter is
    set, and carries nothing after the description when none is. *)
Theorem display_activity_age_suffix (utcnow : nat -> datetime)
        (repr : json -> string) (strftime_ymd : datetime -> string)
        (events : list json) (f : filters) (w : world) :
  events <> [] ->
  Forall (formattable repr (date_filter_active f)) events ->
  exists header,
    display_activity utcnow repr strftime_ymd events f w
    = (Ok tt,
       {| stdout := (stdout w ++ header
                     ++ event_lines utcnow repr (date_filter_active f)
                          (clock_reads w) events)%list;
          clock_reads := if date_filter_active f
                         then (clock_reads w + List.length events)%nat
                         else clock_reads w |}) /\
    (forall d age, event_line true d age = "- " ++ d ++ " (" ++ age ++ ")") /\
    (forall d age, event_line false d age = "- " ++ d).
Proof.
  intros Hne Hall. destruct events as [|e events]; [contradiction|].
  unfold display_activity.
  match goal with
  | |- context [match ?fd with [] => mret tt | _ :: _ => print _ end] =>
      set (filter_desc := fd)
  end.
  change (match date_from f with Some _ => true | None => false end)
    with (date_filter_active f).
  set (recent := newline ++ "Recent Activity ("
                 ++ Str.of_Z (Z.of_nat (List.length (e :: events))) ++ " events)").
  set (filters_line := "Filters: " ++ join ", " filter_desc).
  exists (recent
          :: (match filter_desc with [] => [] | _ => [filters_line] end)
          ++ [repeat_string "-" 60])%list.
  subst filters_line.
  split.
  - unfold mbind at 1. unfold print at 1. cbn [stdout clock_reads].
    unfold mbind at 1.
    destruct filter_desc as [|x fd].
    + unfold mret at 1. unfold mbind at 1. unfold print at 1.
      cbn [stdout clock_reads].
      rewrite (for_each_event_lines _ _ _ _ _ Hall). cbn [stdout clock_reads].
      f_equal. apply world_eq; [|reflexivity].
      rewrite <- !app_assoc. reflexivity.
    + unfold print at 1. cbn [stdout clock_reads].
      unfold mbind at 1. unfold print at 1. cbn [stdout clock_reads].
      rewrite (for_each_event_lines _ _ _ _ _ Hall). cbn [stdout clock_reads].
      f_equal. apply world_eq; [|reflexivity].
      rewrite <- !app_assoc. reflexivity.
  - split; intros d age; unfold event_line; [reflexivity|].
    now rewrite append_nil_r.
Qed.

Lemma display_activity_age_suffix_witness :
  exists header,
    display_activity sample_clock sample_repr sample_strftime
      [watch_event] (since 1) initial_world
    = (Ok tt,
       {| stdout := (header ++ ["- Starred octo/repo (1 day ago)"])%list;
          clock_reads := 1 |}).
Proof.
  assert (Hne : [watch_event] <> []) by discriminate.
  assert (Hall : Forall (formattable sample_repr (date_filter_active (since 1)))
                        [watch_event]).
  { constructor; [|constructor].
    split; [eexists; reflexivity|intros _; eexists; vm_compute; reflexivity]. }
  destruct (display_activity_age_suffix sample_clock sample_repr sample_strftime
              [watch_event] (since 1) initial_world Hne Hall)
    as (header & H & _).
  exists header. rewrite H. reflexivity.
Defined.

(** Two runs on the sample events: with [--week] every line ends with
    its age, without a date filter none does. *)
Example run_with_and_without_week :
  run sample_clock sample_repr sample_strftime sample_urlopen
    ["octocat"; "--week"]
  = (0, ["Fetching activity for GitHub user: octocat...";
         newline ++ "Recent Activity (2 events)";
         "Filters: Since: 2024-01-01";
         repeat_string "-" 60;
         "- Pushed 3 commit(s) to octo/repo (30 minutes ago)";
         "- Starred octo/repo (1 day ago)"]) /\
  run sample_clock sample_repr sample_strftime sample_urlopen ["octocat"]
  = (0, ["Fetching activity for GitHub user: octocat...";
         newline ++ "Recent Activity (3 events)";
         repeat_string "-" 60;
         "- Pushed 3 commit(s) to octo/repo";
         "- Starred octo/repo";
         "- Foo in x"]).
Proof. split; vm_compute; reflexivity. Qed.

(** ** Exit codes *)

Lemma no_exit_bind {A B : Type} (c : result A) (k : A -> result B) :
  no_exit c -> (forall a, no_exit (k a)) -> no_exit (rbind c k).
Proof. destruct c as [a|e]; simpl; auto. Qed.

Lemma no_exit_get (v : json) (key : string) (d : json) : no_exit (py_get v key d).
Proof. destruct v; simpl; auto. destruct (assoc key fields); exact I. Qed.

Lemma no_exit_lower (v : json) : no_exit (py_lower v).
Proof. destruct v; exact I. Qed.

Lemma no_exit_capitalize (v : json) : no_exit (py_capitalize v).
Proof. destruct v; exact I. Qed.

Lemma no_exit_replace (v : json) (old new : string) : no_exit (py_replace v old new).
Proof. destruct v; exact I. Qed.

Lemma no_exit_len (v : json) : no_exit (py_len v).
Proof. destruct v; exact I. Qed.

Lemma no_exit_parse_event_date (e : json) : no_exit (parse_event_date e).
Proof.
  unfold parse_event_date.
  destruct (py_get e "created_at" (JStr EmptyString)) as [v|x] eqn:H.
  - simpl. destruct v; try exact I. simpl.
    destruct (Datetime.strptime_iso s) as [d|x] eqn:Hs; [exact I|].
    now rewrite (strptime_iso_raises s x Hs).
  - pose proof (no_exit_get e "created_at" (JStr EmptyString)) as Hg.
    now rewrite H in Hg.
Qed.

Lemma no_exit_payload_get (e : json) (key : string) (d : json) :
  no_exit (payload_get e key d).
Proof.
  unfold payload_get. apply no_exit_bind; [|intros ?]; apply no_exit_get.
Qed.

Create HintDb no_exit.

#[local] Hint Resolve no_exit_get no_exit_lower no_exit_capitalize
  no_exit_replace no_exit_len no_exit_parse_event_date
  no_exit_payload_get : no_exit.

Ltac no_exit_steps :=
  repeat first
    [ exact I
    | apply no_exit_bind; [solve [auto with no_exit]|intros ?]
    | match goal with
      | |- no_exit (if ?c then _ else _) => destruct c
      end ].

Lemma no_exit_filter_r {A : Type} (p : A -> result bool) (l : list A) :
  (forall x, no_exit (p x)) -> no_exit (filter_r p l).
Proof.
  intros Hp. induction l as [|x l IH]; simpl; [exact I|].
  specialize (Hp x). destruct (p x); [|exact Hp].
  destruct (filter_r p l); [exact I|exact IH].
Qed.

Lemma no_exit_stage (S : filters) (l : list json) :
  no_exit (stage (type_stage S) l) /\
  no_exit (stage (repo_stage S) l) /\
  no_exit (stage (date_stage S) l).
Proof.
  unfold type_stage, repo_stage, date_stage. repeat split.
  - destruct (truthy_str (event_type S)); simpl; [|exact I].
    apply no_exit_filter_r. intros x. unfold type_is. no_exit_steps.
  - destruct (truthy_str (repo S)); simpl; [|exact I].
    apply no_exit_filter_r. intros x. unfold repo_matches. no_exit_steps.
  - destruct (date_from S); simpl; [|exact I].
    apply no_exit_filter_r. intros x. unfold not_before. no_exit_steps.
Qed.

Lemma no_exit_filter_events (E : list json) (S : filters) :
  no_exit (filter_events E S).
Proof.
  rewrite filter_events_stages.
  apply no_exit_bind; [apply no_exit_stage|intros E1].
  apply no_exit_bind; [apply no_exit_stage|intros E2].
  apply no_exit_bind; [apply no_exit_stage|intros E3]. exact I.
Qed.

Lemma no_exit_description (repr : json -> string) (e : json) :
  no_exit (description repr e).
Proof. unfold description. no_exit_steps. Qed.

Lemma exit_status_ends_with_1 {A : Type} (e : exn) :
  @ends_with_1 A (Raise e) -> @exit_status A (Raise e) = 1.
Proof. destruct e; simpl; auto. Qed.

Lemma exit_status_no_exit {A : Type} (e : exn) :
  @no_exit A (Raise e) -> @exit_status A (Raise e) = 1.
Proof. destruct e; simpl; tauto. Qed.

Lemma PyInt_parse_raises (s : string) (e : exn) :
  PyInt.parse s = Raise e -> e = ValueError.
Proof.
  unfold PyInt.parse.
  match goal with |- match ?x with _ => _ end = _ -> _ => destruct x end;
    [discriminate|now intros [= <-]].
Qed.

Lemma strptime_date_raises (s : string) (e : exn) :
  Datetime.strptime_date s = Raise e -> e = ValueError.
Proof.
  unfold Datetime.strptime_date, Datetime.fields, Datetime.make.
  destruct (Datetime.match_items Datetime.format_date s) as [[groups rest]|];
    [|now intros [= <-]].
  destruct rest; [|now intros [= <-]].
  destruct (map (Datetime.group_value 0) groups) as [|y [|mo [|d [|]]]];
    try (now intros [= <-]).
  match goal with |- context [if ?c then _ else _] => destruct c end;
    [discriminate|now intros [= <-]].
Qed.

Ltac unfold_M :=
  unfold mbind, mexcept_ValueError, lift, print, sys_exit, read_clock, mret;
  cbn [fst snd stdout clock_reads].

Section ParseLoop.

Variable utcnow : nat -> datetime.

Lemma parse_loop_ends_with_1 (n : nat) :
  forall (args : list string) (f : filters) (w : world),
    (List.length args <= n)%nat ->
    ends_with_1 (fst (parse_loop utcnow args f w)).
Proof.
  induction n as [|n IH]; intros args f w Hlen.
  - destruct args; [exact I|simpl in Hlen; lia].
  - destruct args as [|arg rest]; [exact I|]. simpl in Hlen.
    assert (IH1 : forall f w, ends_with_1 (fst (parse_loop utcnow rest f w)))
      by (intros; apply IH; lia).
    assert (IH2 : forall v rest' f w, rest = v :: rest' ->
                    ends_with_1 (fst (parse_loop utcnow rest' f w)))
      by (intros v rest' f' w' ->; apply IH; simpl in Hlen; lia).
    cbn [parse_loop].
    destruct (is_in arg ["--type"; "-t"]).
    { destruct rest as [|value rest']; [reflexivity|].
      destruct (assoc _ _); unfold_M; eapply IH2; reflexivity. }
    destruct (is_in arg ["--repo"; "-r"]).
    { destruct rest as [|value rest']; [reflexivity|].
      eapply IH2; reflexivity. }
    destruct (is_in arg ["--limit"; "-l"]).
    { destruct rest as [|value rest']; [reflexivity|]. unfold_M.
      destruct (PyInt.parse value) as [k|e] eqn:Hp.
      - eapply IH2; reflexivity.
      - rewrite (PyInt_parse_raises _ _ Hp). reflexivity. }
    destruct (is_in arg ["--date"; "-d"]).
    { destruct rest as [|value rest']; [reflexivity|]. unfold_M.
      destruct (Datetime.strptime_date value) as [k|e] eqn:Hp.
      - eapply IH2; reflexivity.
      - rewrite (strptime_date_raises _ _ Hp). reflexivity. }
    destruct (arg =? "--today")%string; [unfold_M; apply IH1|].
    destruct (arg =? "--week")%string.
    { unfold_M. unfold minus_days.
      match goal with |- context [if ?c then _ else _] => destruct c end;
        [exact I|apply IH1]. }
    unfold_M. apply IH1.
Qed.

(** Arguments read to the end without a fatal error are read in the
    same way when more arguments follow. *)
Lemma parse_loop_app (n : nat) :
  forall (pre post : list string) (f f' : filters) (w w' : world),
    (List.length pre <= n)%nat ->
    parse_loop utcnow pre f w = (Ok f', w') ->
    parse_loop utcnow (pre ++ post) f w = parse_loop utcnow post f' w'.
Proof.
  induction n as [|n IH]; intros pre post f f' w w' Hlen.
  - destruct pre; [|simpl in Hlen; lia].
    simpl. unfold mret. now intros [= -> ->].
  - destruct pre as [|arg rest].
    { simpl. unfold mret. now intros [= -> ->]. }
    simpl in Hlen.
    assert (IH1 : forall f w, parse_loop utcnow rest f w = (Ok f', w') ->
              parse_loop utcnow (rest ++ post) f w = parse_loop utcnow post f' w')
      by (intros; apply IH; [lia|assumption]).
    assert (IH2 : forall v rest' f w, rest = v :: rest' ->
              parse_loop utcnow rest' f w = (Ok f', w') ->
              parse_loop utcnow (rest' ++ post) f w = parse_loop utcnow post f' w')
      by (intros v rest' f0 w0 -> ?; apply IH; [simpl in Hlen; lia|assumption]).
    change ((arg :: rest) ++ post)%list with (arg :: (rest ++ post))%list.
    cbn [parse_loop].
    destruct (is_in arg ["--type"; "-t"]).
    { destruct rest as [|value rest']; [discriminate|]. cbn [app].
      destruct (assoc _ _); unfold_M; eapply IH2; reflexivity. }
    destruct (is_in arg ["--repo"; "-r"]).
    { destruct rest as [|value rest']; [discriminate|]. cbn [app].
      eapply IH2; reflexivity. }
    destruct (is_in arg ["--limit"; "-l"]).
    { destruct rest as [|value rest']; [discriminate|]. cbn [app]. unfold_M.
      destruct (PyInt.parse value) as [k|e] eqn:Hp.
      - eapply IH2; reflexivity.
      - rewrite (PyInt_parse_raises _ _ Hp). discriminate. }
    destruct (is_in arg ["--date"; "-d"]).
    { destruct rest as [|value rest']; [discriminate|]. cbn [app]. unfold_M.
      destruct (Datetime.strptime_date value) as [k|e] eqn:Hp.
      - eapply IH2; reflexivity.
      - rewrite (strptime_date_raises _ _ Hp). discriminate. }
    destruct (arg =? "--today")%string; [unfold_M; apply IH1|].
    destruct (arg =? "--week")%string.
    { unfold_M. unfold minus_days.
      match goal with |- context [if ?c then _ else _] => destruct c end;
        [discriminate|apply IH1]. }
    unfold_M. apply IH1.
Qed.

End ParseLoop.

Section ExitCodes.

Variable utcnow : nat -> datetime.
Variable repr : json -> string.
Variable strftime_ymd : datetime -> string.
Variable urlopen : string -> response.

Lemma parse_loop_missing_value (pre : list string) (flag : string) :
  parses utcnow pre -> In flag value_flags ->
  exists w, parse_loop utcnow (pre ++ [flag]) no_filters initial_world
            = (Raise (SystemExit 1), w).
Proof.
  intros (f & w & H) Hflag.
  rewrite (parse_loop_app utcnow (List.length pre) pre [flag] _ _ _ _
             (le_n _) H).
  unfold value_flags in Hflag. simpl in Hflag.
  repeat (destruct Hflag as [<-|Hflag]; [eexists; reflexivity|]).
  contradiction.
Qed.

Lemma parse_loop_bad_limit (pre post : list string) (flag value : string) :
  parses utcnow pre -> In flag ["--limit"; "-l"] ->
  PyInt.parse value = Raise ValueError ->
  exists w, parse_loop utcnow (pre ++ flag :: value :: post) no_filters
              initial_world = (Raise (SystemExit 1), w).
Proof.
  intros (f & w & H) Hflag Hv.
  rewrite (parse_loop_app utcnow (List.length pre) pre _ _ _ _ _ (le_n _) H).
  simpl in Hflag.
  repeat (destruct Hflag as [<-|Hflag];
          [cbn [parse_loop is_in existsb String.eqb Ascii.eqb Bool.eqb orb];
           unfold_M; rewrite Hv; eexists; reflexivity|]).
  contradiction.
Qed.

Lemma parse_loop_bad_date (pre post : list string) (flag value : string) :
  parses utcnow pre -> In flag ["--date"; "-d"] ->
  Datetime.strptime_date value = Raise ValueError ->
  exists w, parse_loop utcnow (pre ++ flag :: value :: post) no_filters
              initial_world = (Raise (SystemExit 1), w).
Proof.
  intros (f & w & H) Hflag Hv.
  rewrite (parse_loop_app utcnow (List.length pre) pre _ _ _ _ _ (le_n _) H).
  simpl in Hflag.
  repeat (destruct Hflag as [<-|Hflag];
          [cbn [parse_loop is_in existsb String.eqb Ascii.eqb Bool.eqb orb];
           unfold_M; rewrite Hv; eexists; reflexivity|]).
  contradiction.
Qed.

Lemma no_exit_format_event (e : json) (show_date : bool) (w : world) :
  no_exit (fst (format_event utcnow repr e show_date w)).
Proof.
  unfold format_event, get_time_ago. unfold_M.
  pose proof (no_exit_description repr e) as Hd.
  destruct (description repr e) as [d|x]; [|exact Hd].
  destruct show_date; [|exact I].
  pose proof (no_exit_parse_event_date e) as Ht.
  destruct (parse_event_date e) as [t|x]; [exact I|exact Ht].
Qed.

Lemma no_exit_for_each {A : Type} (body : A -> M unit) (l : list A) :
  (forall x w, no_exit (fst (body x w))) ->
  forall w, no_exit (fst (for_each l body w)).
Proof.
  intros Hb. induction l as [|x l IH]; intros w; simpl; [exact I|].
  unfold mbind. specialize (Hb x w).
  destruct (body x w) as [[u|e] w1]; [apply IH|exact Hb].
Qed.

Lemma no_exit_display_activity (events : list json) (f : filters) (w : world) :
  no_exit (fst (display_activity utcnow repr strftime_ymd events f w)).
Proof.
  unfold display_activity. destruct events as [|e events]; [exact I|].
  match goal with
  | |- context [match ?fd with [] => mret tt | _ :: _ => print _ end] =>
      destruct fd
  end; unfold_M; apply no_exit_for_each; intros x w0;
    pose proof (no_exit_format_event x (date_filter_active f) w0) as Hx;
    unfold date_filter_active in Hx;
    destruct (format_event utcnow repr x _ w0) as [[line|e0] w1];
    solve [exact I|exact Hx].
Qed.

Lemma run_cons (username : string) (rest : list string) :
  run utcnow repr strftime_ymd urlopen (username :: rest) =
  match parse_loop utcnow rest no_filters initial_world with
  | (Raise e, w) => (@exit_status unit (Raise e), stdout w)
  | (Ok f, w) =>
      let w1 :=
        snd (print ("Fetching activity for GitHub user: " ++ username ++ "...") w) in
      match urlopen (url_of username) with
      | Events events =>
          match filter_events events f with
          | Ok F =>
              let (r, w2) := display_activity utcnow repr strftime_ymd F f w1 in
              (exit_status r, stdout w2)
          | Raise e => (@exit_status unit (Raise e), stdout w1)
          end
      | _ =>
          (1, stdout (snd (fetch_user_activity urlopen username w1)))
      end
  end.
Proof.
  unfold run, main, parse_arguments. unfold mbind at 1. unfold mbind at 1.
  destruct (parse_loop utcnow rest no_filters initial_world) as [[f|e] w];
    [|reflexivity].
  unfold mret. unfold mbind at 1. unfold print at 1. cbn [snd fst].
  unfold mbind at 1. unfold fetch_user_activity, url_of.
  destruct (urlopen _) as [code reason|reason| |events].
  - destruct (code =? 404); reflexivity.
  - reflexivity.
  - reflexivity.
  - unfold mret, mbind, lift.
    destruct (filter_events events f) as [F|e]; [|reflexivity].
    unfold print. cbn [snd stdout clock_reads].
    destruct (display_activity _ _ _ _ _ _) as [[u|e] w2]; reflexivity.
Qed.

Lemma run_parse_exit (username : string) (rest : list string) (w : world) :
  parse_loop utcnow rest no_filters initial_world = (Raise (SystemExit 1), w) ->
  fst (run utcnow repr strftime_ymd urlopen (username :: rest)) = 1.
Proof. intros H. rewrite run_cons, H. reflexivity. Qed.

Lemma run_exit_0_iff (argv : list string) :
  fst (run utcnow repr strftime_ymd urlopen argv) = 0
  <-> run_succeeds utcnow repr strftime_ymd urlopen argv.
Proof.
  destruct argv as [|username rest].
  - split; [discriminate|].
    intros (u & f & w & events & F & w' & Hp & _). discriminate Hp.
  - rewrite run_cons. unfold run_succeeds, parse_arguments, mbind, mret.
    pose proof (parse_loop_ends_with_1 utcnow (List.length rest) rest
                  no_filters initial_world (le_n _)) as Hends.
    destruct (parse_loop utcnow rest no_filters initial_world) as [[f|e] w].
    + cbn zeta.
      destruct (urlopen (url_of username)) as [c reason|reason| |events] eqn:Hu.
      * split; [discriminate|].
        intros (u & f0 & w0 & ev & F & w' & [= <- <- <-] & Hu' & _). congruence.
      * split; [discriminate|].
        intros (u & f0 & w0 & ev & F & w' & [= <- <- <-] & Hu' & _). congruence.
      * split; [discriminate|].
        intros (u & f0 & w0 & ev & F & w' & [= <- <- <-] & Hu' & _). congruence.
      * pose proof (no_exit_filter_events events f) as Hf.
        destruct (filter_events events f) as [F|e] eqn:HF.
        -- pose proof (no_exit_display_activity F f
               (snd (print ("Fetching activity for GitHub user: "
                            ++ username ++ "...") w))) as Hd.
           destruct (display_activity utcnow repr strftime_ymd F f _)
             as [[[]|e] w2] eqn:HD.
           ++ split; [intros _|reflexivity].
              exists username, f, w, events, F, w2. auto.
           ++ cbn [fst]. rewrite (exit_status_no_exit e Hd).
              split; [discriminate|].
              intros (u & f0 & w0 & ev & F0 & w' & [= <- <- <-] & Hu' & HF' & HD').
              rewrite Hu in Hu'. injection Hu' as <-.
              rewrite HF in HF'. injection HF' as <-.
              rewrite HD in HD'. discriminate HD'.
        -- cbn [fst]. rewrite (@exit_status_no_exit unit e Hf).
           split; [discriminate|].
           intros (u & f0 & w0 & ev & F0 & w' & [= <- <- <-] & Hu' & HF' & _).
           rewrite Hu in Hu'. injection Hu' as <-.
           rewrite HF in HF'. discriminate HF'.
    + cbn [fst] in *. rewrite (@exit_status_ends_with_1 unit e Hends).
      split; [discriminate|].
      intros (u & f0 & w0 & ev & F & w' & Hp & _). discriminate Hp.
Qed.

(** C9.  The exit status of a run is 0 exactly when the run succeeds,
    which it does too when no event passes the filters; it is 1 when no
    identifier is given, when the fetch fails, when a flag that takes a
    value is the last argument, and when the value of [--limit] or of
    [--date] cannot be parsed. *)
Theorem exit_codes (argv : list string) :
  (fst (run utcnow repr strftime_ymd urlopen argv) = 0
   <-> run_succeeds utcnow repr strftime_ymd urlopen argv) /\
  (forall username f w events,
      parse_arguments utcnow argv initial_world = (Ok (Some username, f), w) ->
      urlopen (url_of username) = Events events ->
      filter_events events f = Ok [] ->
      fst (run utcnow repr strftime_ymd urlopen argv) = 0) /\
  (argv = [] -> fst (run utcnow repr strftime_ymd urlopen argv) = 1) /\
  (forall username rest,
      argv = username :: rest ->
      fetch_fails (urlopen (url_of username)) ->
      fst (run utcnow repr strftime_ymd urlopen argv) = 1) /\
  (forall username pre flag,
      argv = (username :: pre ++ [flag])%list ->
      parses utcnow pre -> In flag value_flags ->
      fst (run utcnow repr strftime_ymd urlopen argv) = 1) /\
  (forall username pre flag value post,
      argv = (username :: pre ++ flag :: value :: post)%list ->
      parses utcnow pre ->
      (In flag ["--limit"; "-l"] /\ PyInt.parse value = Raise ValueError) \/
      (In flag ["--date"; "-d"]
       /\ Datetime.strptime_date value = Raise ValueError) ->
      fst (run utcnow repr strftime_ymd urlopen argv) = 1).
Proof.
  split; [apply run_exit_0_iff|].
  split.
  { intros username f w events Hp Hu HF. apply run_exit_0_iff.
    exists username, f, w, events, [].
    eexists. split; [eassumption|]. split; [eassumption|].
    split; [eassumption|]. reflexivity. }
  split; [intros ->; reflexivity|].
  split.
  { intros username rest -> Hfail. rewrite run_cons.
    pose proof (parse_loop_ends_with_1 utcnow (List.length rest) rest
                  no_filters initial_world (le_n _)) as Hends.
    destruct (parse_loop utcnow rest no_filters initial_world) as [[f|e] w].
    - cbn zeta. destruct (urlopen (url_of username)); try reflexivity.
      contradiction.
    - cbn [fst] in *. apply (@exit_status_ends_with_1 unit e Hends). }
  split.
  { intros username pre flag -> Hpre Hflag.
    destruct (parse_loop_missing_value pre flag Hpre Hflag) as [w H].
    now apply run_parse_exit with w. }
  intros username pre flag value post -> Hpre [[Hflag Hv]|[Hflag Hv]].
  - destruct (parse_loop_bad_limit pre post flag value Hpre Hflag Hv) as [w H].
    now apply run_parse_exit with w.
  - destruct (parse_loop_bad_date pre post flag value Hpre Hflag Hv) as [w H].
    now apply run_parse_exit with w.
Qed.

End ExitCodes.

Lemma exit_codes_witness :
  fst (run sample_clock sample_repr sample_strftime sample_urlopen
         ["octocat"; "--type"; "fork"]) = 0 /\
  fst (run sample_clock sample_repr sample_strftime sample_urlopen []) = 1 /\
  fst (run sample_clock sample_repr sample_strftime not_found_urlopen
         ["octocat"]) = 1 /\
  fst (run sample_clock sample_repr sample_strftime sample_urlopen
         ["octocat"; "--repo"; "x"; "--limit"]) = 1 /\
  fst (run sample_clock sample_repr sample_strftime sample_urlopen
         ["octocat"; "--limit"; "five"]) = 1 /\
  fst (run sample_clock sample_repr sample_strftime sample_urlopen
         ["octocat"; "--date"; "yesterday"]) = 1.
Proof.
  split.
  { apply (proj1 (proj2 (exit_codes sample_clock sample_repr sample_strftime
                           sample_urlopen ["octocat"; "--type"; "fork"]))
             "octocat" (set_event_type no_filters "ForkEvent") initial_world
             sample_events); reflexivity. }
  split.
  { apply (exit_codes sample_clock sample_repr sample_strftime sample_urlopen []).
    reflexivity. }
  split.
  { apply (proj1 (proj2 (proj2 (proj2
             (exit_codes sample_clock sample_repr sample_strftime
                not_found_urlopen ["octocat"])))) "octocat" []);
      [reflexivity|exact I]. }
  split.
  { apply (proj1 (proj2 (proj2 (proj2 (proj2
             (exit_codes sample_clock sample_repr sample_strftime
                sample_urlopen ["octocat"; "--repo"; "x"; "--limit"])))))
             "octocat" ["--repo"; "x"] "--limit").
    - reflexivity.
    - eexists; eexists; reflexivity.
    - unfold value_flags; simpl; tauto. }
  split.
  { apply (proj2 (proj2 (proj2 (proj2 (proj2
             (exit_codes sample_clock sample_repr sample_strftime
                sample_urlopen ["octocat"; "--limit"; "five"])))))
             "octocat" [] "--limit" "five" []).
    - reflexivity.
    - eexists; eexists; reflexivity.
    - left. split; [simpl; tauto|reflexivity]. }
  apply (proj2 (proj2 (proj2 (proj2 (proj2
           (exit_codes sample_clock sample_repr sample_strftime
              sample_urlopen ["octocat"; "--date"; "yesterday"])))))
           "octocat" [] "--date" "yesterday" []).
  - reflexivity.
  - eexists; eexists; reflexivity.
  - right. split; [simpl; tauto|reflexivity].
Defined.

(** * Further properties of the program *)

(** ** Filtering, field by field *)

Lemma stage_none (l : list json) : stage None l = Ok l.
Proof. reflexivity. Qed.

(** X1.  [filter_events] is the composition of its four steps: filtering
    by [S] is filtering by the category of [S] alone, then by its
    repository alone, then by its date alone, and cutting to its limit
    last of all. *)
Theorem filter_events_decomposes (E : list json) (S : filters) :
  filter_events E S =
  rbind (filter_events E (only_type S)) (fun F1 =>
  rbind (filter_events F1 (only_repo S)) (fun F2 =>
  rbind (filter_events F2 (only_date S)) (fun F3 =>
  filter_events F3 (only_limit_of S)))).
Proof.
  rewrite (filter_events_stages E S), (filter_events_stages E (only_type S)).
  change (type_stage (only_type S)) with (type_stage S).
  change (repo_stage (only_type S)) with (@None (json -> result bool)).
  change (date_stage (only_type S)) with (@None (json -> result bool)).
  destruct (stage (type_stage S) E) as [E1|e]; [|reflexivity].
  cbn [rbind stage limit_step only_type limit truthy_int].
  rewrite (filter_events_stages E1 (only_repo S)).
  change (type_stage (only_repo S)) with (@None (json -> result bool)).
  change (repo_stage (only_repo S)) with (repo_stage S).
  change (date_stage (only_repo S)) with (@None (json -> result bool)).
  cbn [rbind stage].
  destruct (stage (repo_stage S) E1) as [E2|e]; [|reflexivity].
  cbn [rbind stage limit_step only_repo limit truthy_int].
  rewrite (filter_events_stages E2 (only_date S)).
  change (type_stage (only_date S)) with (@None (json -> result bool)).
  change (repo_stage (only_date S)) with (@None (json -> result bool)).
  change (date_stage (only_date S)) with (date_stage S).
  cbn [rbind stage].
  destruct (stage (date_stage S) E2) as [E3|e]; [|reflexivity].
  cbn [rbind stage limit_step only_date limit truthy_int].
  rewrite (filter_events_stages E3 (only_limit_of S)). reflexivity.
Qed.

Lemma filter_events_without_limit (E : list json) (S : filters) :
  filter_events E S =
  rbind (filter_events E (without_limit S)) (fun V => Ok (limit_step S V)).
Proof.
  rewrite (filter_events_stages E S), (filter_events_stages E (without_limit S)).
  change (type_stage (without_limit S)) with (type_stage S).
  change (repo_stage (without_limit S)) with (repo_stage S).
  change (date_stage (without_limit S)) with (date_stage S).
  destruct (stage (type_stage S) E) as [E1|e]; [|reflexivity]. cbn [rbind].
  destruct (stage (repo_stage S) E1) as [E2|e]; [|reflexivity]. cbn [rbind].
  destruct (stage (date_stage S) E2) as [E3|e]; reflexivity.
Qed.

(** X2.  A positive limit [N] caps what the other filters keep: the
    result is the first [N] of the records that pass them, all of them
    when fewer than [N] pass, and so never longer than [N]. *)
Theorem positive_limit_caps_filtered (E F : list json) (S : filters) (N : Z) :
  limit S = Some N -> 0 < N ->
  filter_events E S = Ok F ->
  exists V,
    filter_events E (without_limit S) = Ok V /\
    F = firstn (Z.to_nat N) V /\
    Z.of_nat (List.length F) = Z.min N (Z.of_nat (List.length V)).
Proof.
  intros HN Hpos. rewrite filter_events_without_limit.
  destruct (filter_events E (without_limit S)) as [V|e]; [|discriminate].
  cbn [rbind]. unfold limit_step. rewrite HN.
  destruct N as [|n|n]; try lia. cbn [truthy_int]. unfold slice_to. simpl.
  intros [= <-]. exists V. split; [reflexivity|]. split; [reflexivity|].
  rewrite length_firstn. lia.
Qed.

Lemma positive_limit_caps_filtered_witness :
  exists V,
    filter_events sample_events (without_limit (only_limit 2)) = Ok V /\
    [push_event; watch_event] = firstn (Z.to_nat 2) V /\
    Z.of_nat (List.length [push_event; watch_event])
    = Z.min 2 (Z.of_nat (List.length V)).
Proof.
  apply (positive_limit_caps_filtered sample_events [push_event; watch_event]
           (only_limit 2) 2); [reflexivity|lia|reflexivity].
Defined.

Lemma lower_empty (r1 r2 : string) :
  Str.lower r1 = Str.lower r2 -> truthy_str (Some r1) = None ->
  truthy_str (Some r2) = None.
Proof. destruct r1, r2; simpl; congruence. Qed.

(** X3.  The repository filter does not look at the case of the
    substring: two substrings with the same lower-case form give the
    same result, errors included. *)
Theorem repo_filter_ignores_case (E : list json) (f : filters) (r1 r2 : string) :
  Str.lower r1 = Str.lower r2 ->
  filter_events E (set_repo f r1) = filter_events E (set_repo f r2).
Proof.
  intros H. rewrite !filter_events_stages.
  change (type_stage (set_repo f r1)) with (type_stage (set_repo f r2)).
  change (date_stage (set_repo f r1)) with (date_stage (set_repo f r2)).
  change (limit_step (set_repo f r1)) with (limit_step (set_repo f r2)).
  replace (repo_stage (set_repo f r1)) with (repo_stage (set_repo f r2));
    [reflexivity|].
  unfold repo_stage. cbn [repo set_repo].
  destruct r1 as [|c1 r1], r2 as [|c2 r2]; try discriminate H; [reflexivity|].
  cbn [truthy_str option_map]. now rewrite H.
Qed.

Lemma repo_filter_ignores_case_witness :
  filter_events sample_events (set_repo no_filters "OCTO/Repo")
  = filter_events sample_events (set_repo no_filters "octo/repo").
Proof.
  apply (repo_filter_ignores_case sample_events no_filters); reflexivity.
Defined.

(** ** The date filter *)

Lemma not_before_later (t1 t2 : datetime) (l F1 : list json) :
  t1 <= t2 ->
  filter_r (not_before t1) l = Ok F1 ->
  exists F2, filter_r (not_before t2) l = Ok F2 /\ subseq F2 F1.
Proof.
  intros Hle. revert F1. induction l as [|x l IH]; simpl; intros F1.
  - intros [= <-]. exists []. split; [reflexivity|constructor].
  - unfold not_before at 1 3.
    destruct (parse_event_date x) as [d|e]; [|discriminate]. cbn [rbind].
    destruct (filter_r (not_before t1) l) as [r1|e]; [|discriminate].
    destruct (IH r1 eq_refl) as (r2 & -> & Hsub).
    intros [= <-].
    destruct (Z.leb_spec t2 d) as [H2|H2].
    + assert (H1 : (t1 <=? d) = true) by (apply Z.leb_le; lia).
      rewrite H1. eexists; split; [reflexivity|now apply subseq_keep].
    + eexists; split; [reflexivity|].
      destruct (t1 <=? d); [now apply subseq_skip|assumption].
Qed.

(** X4.  A later date bound keeps fewer records: without a limit, when
    [filter_events] returns with the bound [t1], it returns with any later
    bound [t2] too, and what it keeps then is kept with [t1], in the same
    order. *)
Theorem later_date_keeps_fewer (E F1 : list json) (S : filters)
        (t1 t2 : datetime) :
  limit S = None -> t1 <= t2 ->
  filter_events E (set_date_from S t1) = Ok F1 ->
  exists F2, filter_events E (set_date_from S t2) = Ok F2 /\ subseq F2 F1.
Proof.
  intros Hl Hle. rewrite !filter_events_stages.
  change (type_stage (set_date_from S t1)) with (type_stage S).
  change (type_stage (set_date_from S t2)) with (type_stage S).
  change (repo_stage (set_date_from S t1)) with (repo_stage S).
  change (repo_stage (set_date_from S t2)) with (repo_stage S).
  destruct (stage (type_stage S) E) as [E1|e]; [|discriminate]. cbn [rbind].
  destruct (stage (repo_stage S) E1) as [E2|e]; [|discriminate]. cbn [rbind].
  unfold date_stage, limit_step. cbn [date_from limit set_date_from option_map stage].
  rewrite Hl. cbn [truthy_int].
  destruct (filter_r (not_before t1) E2) as [F|e] eqn:H1; [|discriminate].
  cbn [rbind]. intros [= <-].
  destruct (not_before_later t1 t2 E2 F Hle H1) as (F2 & -> & Hsub).
  exists F2. split; [reflexivity|assumption].
Qed.

Lemma later_date_keeps_fewer_witness :
  exists F2,
    filter_events sample_events (set_date_from no_filters 63840900000000000)
    = Ok F2 /\ subseq F2 [push_event; watch_event].
Proof.
  apply (later_date_keeps_fewer sample_events [push_event; watch_event]
           no_filters 1 63840900000000000); [reflexivity|lia|].
  vm_compute. reflexivity.
Defined.

Lemma sum_nonneg (l : list Z) (a : Z) :
  0 <= a -> Forall (fun x => 0 <= x) l -> 0 <= fold_left Z.add l a.
Proof.
  intros Ha H. revert a Ha. induction H as [|x l Hx _ IH]; simpl; intros a Ha.
  - assumption.
  - apply IH. lia.
Qed.

Lemma days_in_month_pos (y m : Z) : 0 <= Datetime.days_in_month y m.
Proof.
  unfold Datetime.days_in_month.
  destruct (m =? 2); [destruct (Datetime.is_leap y); lia|].
  destruct ((m =? 4) || (m =? 6) || (m =? 9) || (m =? 11)); lia.
Qed.

Lemma days_before_month_nonneg (y m : Z) : 0 <= Datetime.days_before_month y m.
Proof.
  unfold Datetime.days_before_month. apply sum_nonneg; [lia|].
  apply Forall_forall. intros x Hx. apply in_map_iff in Hx.
  destruct Hx as (k & <- & _). apply days_in_month_pos.
Qed.

Lemma days_before_year_nonneg (y : Z) : 1 <= y -> 0 <= Datetime.days_before_year y.
Proof.
  intros Hy. unfold Datetime.days_before_year. cbv zeta.
  assert (H4 : 0 <= (y - 1) / 4) by (apply Z.div_pos; lia).
  assert (H400 : 0 <= (y - 1) / 400) by (apply Z.div_pos; lia).
  assert (H100 : (y - 1) / 100 <= y - 1).
  { apply Z.div_le_upper_bound; lia. }
  lia.
Qed.

Lemma make_nonneg (y mo d h mi s : Z) (t : datetime) :
  Datetime.make y mo d h mi s = Ok t -> Datetime.min <= t.
Proof.
  unfold Datetime.make.
  match goal with |- context [if ?c then _ else _] => destruct c eqn:Hc end;
    [|discriminate].
  intros [= <-].
  repeat (apply andb_prop in Hc; destruct Hc as [Hc ?]).
  repeat match goal with
         | H : (_ <=? _) = true |- _ => apply Z.leb_le in H
         end.
  pose proof (days_before_year_nonneg y Hc).
  pose proof (days_before_month_nonneg y mo).
  unfold Datetime.min, Datetime.ymd2ord, Datetime.us_per_second. nia.
Qed.

Lemma strptime_iso_nonneg (s : string) (t : datetime) :
  Datetime.strptime_iso s = Ok t -> Datetime.min <= t.
Proof.
  unfold Datetime.strptime_iso.
  destruct (Datetime.fields Datetime.format_iso s)
    as [[|y [|mo [|d [|h [|mi [|se [|]]]]]]]|]; try discriminate.
  apply make_nonneg.
Qed.

(** No record is dated before [datetime.min]. *)
Lemma parse_event_date_nonneg (e : json) (t : datetime) :
  parse_event_date e = Ok t -> Datetime.min <= t.
Proof.
  unfold parse_event_date.
  destruct (py_get e "created_at" (JStr EmptyString)) as [v|x]; [|discriminate].
  cbn [rbind]. destruct v; try discriminate. cbn [py_strptime_iso].
  destruct (Datetime.strptime_iso s) as [d|x] eqn:H.
  - cbn [except_ValueError]. intros [= <-]. now apply strptime_iso_nonneg in H.
  - destruct x; try discriminate. cbn [except_ValueError].
    intros [= <-]. reflexivity.
Qed.

(** X5.  A date bound at [datetime.min] excludes nothing: on records of
    the upstream types, those without a date or with a date [strptime]
    rejects included, the date filter returns its input. *)
Theorem date_filter_at_min_keeps_all (E : list json) :
  Forall well_typed E ->
  filter_events E (since Datetime.min) = Ok E.
Proof.
  intros H. rewrite filter_events_stages.
  change (type_stage (since Datetime.min)) with (@None (json -> result bool)).
  change (repo_stage (since Datetime.min)) with (@None (json -> result bool)).
  cbn [stage rbind]. unfold date_stage. cbn [date_from since option_map stage].
  rewrite filter_r_id; [reflexivity|].
  intros x Hx. rewrite Forall_forall in H.
  destruct (well_typed_parse_event_date x (H x Hx)) as [d Hd].
  unfold not_before. rewrite Hd. cbn [rbind]. f_equal.
  apply Z.leb_le. now apply parse_event_date_nonneg in Hd.
Qed.

Lemma date_filter_at_min_keeps_all_witness :
  filter_events [watch_event; undated_event] (since Datetime.min)
  = Ok [watch_event; undated_event].
Proof.
  apply date_filter_at_min_keeps_all.
  repeat constructor; eexists; (split; [reflexivity|]); simpl;
    (split; [right; eexists; split; [reflexivity|right; eexists; reflexivity]|]);
    solve [left; reflexivity | right; eexists; reflexivity].
Defined.

(** ** What a malformed record does *)

Lemma filter_r_raises {A : Type} (p : A -> result bool) (l : list A)
      (x : A) (e : exn) :
  In x l -> p x = Raise e -> exists e', filter_r p l = Raise e'.
Proof.
  intros Hin Hx. induction l as [|y l IH]; [destruct Hin|]. simpl.
  destruct Hin as [->|Hin].
  - rewrite Hx. eauto.
  - destruct (p y); [|eauto]. destruct (IH Hin) as [e' ->]. eauto.
Qed.

(** X6.  Only [ValueError] is caught in [parse_event_date]: a record
    whose [created_at] is present but is not a string makes it raise
    [TypeError].  With a date bound, [filter_events] raises instead of
    returning whenever such a record is among those its category and
    repository filters keep; when the date is the only filter, whenever
    the list holds such a record. *)
Theorem created_at_not_a_string_raises (fields : list (string * json))
        (v : json) :
  assoc "created_at" fields = Some v -> not_a_string v ->
  parse_event_date (JObj fields) = Raise TypeError /\
  (forall (E V : list json) (S : filters) (t : datetime),
     date_from S = Some t ->
     filter_events E (type_and_repo S) = Ok V -> In (JObj fields) V ->
     exists e, filter_events E S = Raise e) /\
  (forall (E : list json) (t : datetime),
     In (JObj fields) E -> exists e, filter_events E (since t) = Raise e).
Proof.
  intros Hv Hns.
  assert (Hp : parse_event_date (JObj fields) = Raise TypeError).
  { unfold parse_event_date, py_get. rewrite Hv. cbn [rbind].
    destruct v; try reflexivity. destruct Hns. }
  assert (Hnb : forall t, not_before t (JObj fields) = Raise TypeError)
    by (intros t; unfold not_before; now rewrite Hp).
  assert (Hgen : forall (E V : list json) (S : filters) (t : datetime),
             date_from S = Some t ->
             filter_events E (type_and_repo S) = Ok V -> In (JObj fields) V ->
             exists e, filter_events E S = Raise e).
  { intros E V S t Ht HV Hin.
    rewrite filter_events_stages in HV |- *.
    change (type_stage (type_and_repo S)) with (type_stage S) in HV.
    change (repo_stage (type_and_repo S)) with (repo_stage S) in HV.
    destruct (stage (type_stage S) E) as [E1|e1]; [|exists e1; reflexivity].
    cbn [rbind] in HV |- *.
    destruct (stage (repo_stage S) E1) as [E2|e2]; [|exists e2; reflexivity].
    cbn [rbind] in HV |- *.
    injection HV as <-.
    unfold date_stage. rewrite Ht. cbn [option_map stage].
    destruct (filter_r_raises (not_before t) E2 (JObj fields) TypeError
                Hin (Hnb t)) as [e He].
    rewrite He. exists e. reflexivity. }
  split; [assumption|]. split; [exact Hgen|].
  intros E t Hin. apply (Hgen E E (since t) t); [reflexivity| |exact Hin].
  reflexivity.
Qed.

Lemma created_at_not_a_string_raises_witness :
  parse_event_date null_dated_event = Raise TypeError /\
  (exists e,
     filter_events [watch_event; null_dated_event]
       {| event_type := Some "ForkEvent"; repo := None; date_from := Some 1;
          limit := Some 5 |} = Raise e) /\
  exists e, filter_events [watch_event; null_dated_event] (since 1) = Raise e.
Proof.
  destruct (created_at_not_a_string_raises
              [("type", JStr "ForkEvent"); ("created_at", JNull)] JNull
              eq_refl I) as (Hp & Hg & Hf).
  split; [exact Hp|]. split.
  - apply (Hg [watch_event; null_dated_event] [null_dated_event]
              {| event_type := Some "ForkEvent"; repo := None; date_from := Some 1;
                 limit := Some 5 |} 1);
      [reflexivity|vm_compute; reflexivity|left; reflexivity].
  - apply (Hf [watch_event; null_dated_event] 1). right. left. reflexivity.
Defined.

(** The category filter runs first, and what it drops the date filter
    never reads. *)
Example category_filter_hides_record :
  filter_events [watch_event; null_dated_event]
    {| event_type := Some "WatchEvent"; repo := None; date_from := Some 1;
       limit := None |} = Ok [watch_event].
Proof. vm_compute. reflexivity. Qed.

Lemma only_bind {A B : Type} (c : result A) (k : A -> result B) :
  raises_only_attribute_or_type c ->
  (forall a, raises_only_attribute_or_type (k a)) ->
  raises_only_attribute_or_type (rbind c k).
Proof. destruct c as [a|e]; simpl; auto. Qed.

Lemma only_get (v : json) (key : string) (d : json) :
  raises_only_attribute_or_type (py_get v key d).
Proof.
  destruct v; simpl; try (left; reflexivity).
  destruct (assoc key fields); exact I.
Qed.

Lemma only_lower (v : json) : raises_only_attribute_or_type (py_lower v).
Proof. destruct v; simpl; try (left; reflexivity). exact I. Qed.

Lemma only_capitalize (v : json) : raises_only_attribute_or_type (py_capitalize v).
Proof. destruct v; simpl; try (left; reflexivity). exact I. Qed.

Lemma only_replace (v : json) (old new : string) :
  raises_only_attribute_or_type (py_replace v old new).
Proof. destruct v; simpl; try (left; reflexivity). exact I. Qed.

Lemma only_len (v : json) : raises_only_attribute_or_type (py_len v).
Proof. destruct v; simpl; try (right; reflexivity); exact I. Qed.

Lemma only_payload_get (e : json) (key : string) (d : json) :
  raises_only_attribute_or_type (payload_get e key d).
Proof. unfold payload_get. apply only_bind; [|intros ?]; apply only_get. Qed.

Lemma only_parse_event_date (e : json) :
  raises_only_attribute_or_type (parse_event_date e).
Proof.
  unfold parse_event_date.
  pose proof (only_get e "created_at" (JStr EmptyString)) as Hg.
  destruct (py_get e "created_at" (JStr EmptyString)) as [v|x]; [|exact Hg].
  cbn [rbind]. destruct v; try (right; reflexivity). cbn [py_strptime_iso].
  destruct (Datetime.strptime_iso s) as [d|x] eqn:Hs; [exact I|].
  rewrite (strptime_iso_raises s x Hs). exact I.
Qed.

Create HintDb only_attr.

#[local] Hint Resolve only_get only_lower only_capitalize only_replace
  only_len only_payload_get only_parse_event_date : only_attr.

Ltac only_steps :=
  repeat first
    [ exact I
    | apply only_bind; [solve [auto with only_attr]|intros ?]
    | match goal with
      | |- raises_only_attribute_or_type (if ?c then _ else _) => destruct c
      end ].

Lemma only_filter_r {A : Type} (p : A -> result bool) (l : list A) :
  (forall x, raises_only_attribute_or_type (p x)) ->
  raises_only_attribute_or_type (filter_r p l).
Proof.
  intros Hp. induction l as [|x l IH]; simpl; [exact I|].
  specialize (Hp x). destruct (p x); [|exact Hp].
  destruct (filter_r p l); [exact I|exact IH].
Qed.

Lemma only_stage (S : filters) (l : list json) :
  raises_only_attribute_or_type (stage (type_stage S) l) /\
  raises_only_attribute_or_type (stage (repo_stage S) l) /\
  raises_only_attribute_or_type (stage (date_stage S) l).
Proof.
  unfold type_stage, repo_stage, date_stage. repeat split.
  - destruct (truthy_str (event_type S)); simpl; [|exact I].
    apply only_filter_r. intros x. unfold type_is. only_steps.
  - destruct (truthy_str (repo S)); simpl; [|exact I].
    apply only_filter_r. intros x. unfold repo_matches. only_steps.
  - destruct (date_from S); simpl; [|exact I].
    apply only_filter_r. intros x. unfold not_before. only_steps.
Qed.

Lemma only_filter_events (E : list json) (S : filters) :
  raises_only_attribute_or_type (filter_events E S).
Proof.
  rewrite filter_events_stages.
  apply only_bind; [apply only_stage|intros E1].
  apply only_bind; [apply only_stage|intros E2].
  apply only_bind; [apply only_stage|intros E3]. exact I.
Qed.

Lemma only_description (repr : json -> string) (e : json) :
  raises_only_attribute_or_type (description repr e).
Proof. unfold description. only_steps. Qed.

(** X7.  Whatever the records hold, [filter_events] and [format_event]
    raise nothing but [AttributeError] and [TypeError]: the [ValueError]
    of a date that does not parse never leaves [parse_event_date], and
    neither function ends the process by itself. *)
Theorem malformed_records_raise_attribute_or_type
        (utcnow : nat -> datetime) (repr : json -> string) :
  (forall E S e, filter_events E S = Raise e -> attribute_or_type e) /\
  (forall event show_date w e,
      fst (format_event utcnow repr event show_date w) = Raise e ->
      attribute_or_type e).
Proof.
  split.
  - intros E S e H. pose proof (only_filter_events E S) as Ho.
    now rewrite H in Ho.
  - intros event show_date w e. unfold format_event, get_time_ago. unfold_M.
    pose proof (only_description repr event) as Hd.
    destruct (description repr event) as [d|x]; [|now intros [= <-]].
    destruct show_date; [|discriminate].
    pose proof (only_parse_event_date event) as Ht.
    destruct (parse_event_date event) as [t|x]; [discriminate|].
    now intros [= <-].
Qed.

Lemma malformed_records_raise_attribute_or_type_witness :
  filter_events [JNull] watch_filter = Raise AttributeError /\
  attribute_or_type AttributeError.
Proof.
  split; [reflexivity|].
  apply (proj1 (malformed_records_raise_attribute_or_type sample_clock
                  sample_repr) [JNull] watch_filter AttributeError).
  reflexivity.
Defined.

(** ** Ages and names *)

Lemma tier_count (us k hi : Z) :
  0 < k -> k <= us -> us < hi * k -> 1 <= us / k <= hi - 1.
Proof.
  intros Hk Hlo Hhi. split.
  - apply Z.div_le_lower_bound; lia.
  - assert (us / k < hi) by (apply Z.div_lt_upper_bound; lia). lia.
Qed.

(** X8.  [get_time_ago] says ["just now"] for every date in the future
    of the clock, and otherwise never counts zero or a full next unit:
    minutes run from 1 to 59, hours from 1 to 23, days from 1 to 29, and
    months from 1 on. *)
Theorem get_time_ago_counts (utcnow : nat -> datetime) (date : datetime)
        (w : world) :
  exists text,
    fst (get_time_ago utcnow date w) = Ok text /\
    (utcnow (clock_reads w) < date -> text = "just now") /\
    (text = "just now" \/
     exists n unit,
       text = ago_text n unit /\
       ((unit = "minute" /\ 1 <= n <= 59) \/
        (unit = "hour" /\ 1 <= n <= 23) \/
        (unit = "day" /\ 1 <= n <= 29) \/
        (unit = "month" /\ 1 <= n))).
Proof.
  exists (time_ago (utcnow (clock_reads w)) date). split; [reflexivity|].
  destruct (time_ago_floor_cases (utcnow (clock_reads w)) date)
    as [[R ->]|[[R ->]|[[R ->]|[[R ->]|[R ->]]]]];
    unfold seconds, Datetime.us_per_second in R.
  - split; [reflexivity|now left].
  - split; [intros; lia|]. right. eexists _, _. split; [reflexivity|]. left.
    split; [reflexivity|].
    apply (tier_count _ (seconds 60) 60); unfold seconds, Datetime.us_per_second; lia.
  - split; [intros; lia|]. right. eexists _, _. split; [reflexivity|].
    right; left. split; [reflexivity|].
    apply (tier_count _ (seconds 3600) 24); unfold seconds, Datetime.us_per_second; lia.
  - split; [intros; lia|]. right. eexists _, _. split; [reflexivity|].
    right; right; left. split; [reflexivity|].
    apply (tier_count _ (seconds 86400) 30); unfold seconds, Datetime.us_per_second; lia.
  - split; [intros; lia|]. right. eexists _, _. split; [reflexivity|].
    right; right; right. split; [reflexivity|].
    assert (H1 : float_count 2592000 (seconds (1 * 2592000)) = 1)
      by (apply float_count_exact; reflexivity).
    rewrite <- H1 at 1. apply float_count_mono; [reflexivity|].
    unfold seconds, Datetime.us_per_second. lia.
Qed.

Lemma get_time_ago_counts_witness :
  exists text,
    fst (get_time_ago sample_clock 63840911400000001 initial_world) = Ok text /\
    text = "just now".
Proof.
  destruct (get_time_ago_counts sample_clock 63840911400000001 initial_world)
    as (text & Ht & Hfuture & _).
  exists text. split; [exact Ht|]. apply Hfuture.
  unfold sample_clock. lia.
Defined.

Lemma find_existsb_false {A : Type} (f : A -> bool) (l : list A) :
  existsb f l = false -> find f l = None.
Proof.
  induction l as [|x l IH]; simpl; [reflexivity|].
  destruct (f x); [discriminate|exact IH].
Qed.

(** X9.  The name [get_friendly_event_name] shows for a tag of
    [EVENT_TYPE_MAP] leads back to the tag: lower-cased, with underscores
    for its blanks, it is an alias of that tag.  A category outside the
    map is shown without its occurrences of ["Event"]. *)
Theorem friendly_name_round_trip (t : string) :
  (recognized t = true ->
   assoc (Str.lower (Str.replace " " "_" (get_friendly_event_name t)))
         EVENT_TYPE_MAP = Some t) /\
  (recognized t = false ->
   get_friendly_event_name t = Str.replace "Event" EmptyString t).
Proof.
  split; intros H.
  - unfold recognized in H. apply existsb_exists in H.
    destruct H as (entry & Hin & Heq). apply String.eqb_eq in Heq. subst t.
    unfold EVENT_TYPE_MAP in Hin. simpl in Hin.
    repeat (destruct Hin as [<-|Hin]; [reflexivity|]). contradiction.
  - unfold get_friendly_event_name.
    now rewrite (find_existsb_false _ _ H).
Qed.

Lemma friendly_name_round_trip_witness :
  assoc (Str.lower (Str.replace " " "_"
                      (get_friendly_event_name "PullRequestReviewEvent")))
        EVENT_TYPE_MAP = Some "PullRequestReviewEvent" /\
  get_friendly_event_name "GollumEvent" = "Gollum".
Proof.
  split.
  - apply (proj1 (friendly_name_round_trip "PullRequestReviewEvent")).
    reflexivity.
  - apply (proj2 (friendly_name_round_trip "GollumEvent")). reflexivity.
Defined.

(** ** Records [format_event] can describe *)

Section Describable.

Variable fields : list (string * json).

Hypothesis payload_ok :
  assoc "payload" fields = None \/
  exists payload_fields,
    assoc "payload" fields = Some (JObj payload_fields) /\
    (assoc "commits" payload_fields = None \/
     exists l, assoc "commits" payload_fields = Some (JArr l)) /\
    (assoc "action" payload_fields = None \/
     exists a, assoc "action" payload_fields = Some (JStr a)).

Lemma payload_get_commits :
  exists l, payload_get (JObj fields) "commits" (JArr []) = Ok (JArr l).
Proof.
  unfold payload_get, py_get.
  destruct payload_ok as [->|(pf & -> & [Hc|(l & Hc)] & _)]; cbn [rbind].
  - exists []. reflexivity.
  - rewrite Hc. exists []. reflexivity.
  - rewrite Hc. exists l. reflexivity.
Qed.

Lemma payload_get_action (d : string) :
  exists a, payload_get (JObj fields) "action" (JStr d) = Ok (JStr a).
Proof.
  unfold payload_get, py_get.
  destruct payload_ok as [->|(pf & -> & _ & [Ha|(a & Ha)])]; cbn [rbind].
  - exists d. reflexivity.
  - rewrite Ha. exists d. reflexivity.
  - rewrite Ha. exists a. reflexivity.
Qed.

Lemma payload_get_any (key : string) (d : json) :
  exists v, payload_get (JObj fields) key d = Ok v.
Proof.
  unfold payload_get, py_get.
  destruct payload_ok as [->|(pf & -> & _)]; cbn [rbind].
  - exists d. reflexivity.
  - destruct (assoc key pf) as [v|]; [exists v|exists d]; reflexivity.
Qed.

End Describable.

Lemma description_total (repr : json -> string) (e : json) :
  describable e -> exists d, description repr e = Ok d.
Proof.
  intros (fields & c & -> & Ht & Hrepo & Hpay).
  destruct (payload_get_commits fields Hpay) as [l Hl].
  destruct (payload_get_any fields Hpay "ref_type" (JStr "repository")) as [v1 Hv1].
  destruct (payload_get_any fields Hpay "ref_type" (JStr "branch")) as [v2 Hv2].
  destruct (payload_get_action fields Hpay "updated") as [a1 Ha1].
  destruct (payload_get_action fields Hpay "published") as [a2 Ha2].
  unfold description.
  replace (py_get (JObj fields) "type" JNull) with (Ok (JStr c))
    by (unfold py_get; now rewrite Ht).
  cbn [rbind].
  assert (Hr : exists rf, py_get (JObj fields) "repo" (JObj []) = Ok (JObj rf)).
  { unfold py_get. destruct Hrepo as [->|(rf & ->)]; eauto. }
  destruct Hr as [rf ->]. cbn [rbind].
  assert (Hn : exists n, py_get (JObj rf) "name" (JStr "unknown repo") = Ok n).
  { unfold py_get. destruct (assoc "name" rf); eauto. }
  destruct Hn as [n ->]. cbn [rbind].
  rewrite Hl, Hv1, Hv2, Ha1, Ha2. cbn [rbind py_len py_capitalize py_replace].
  repeat match goal with
         | |- context [if ?b then _ else _] => destruct b
         end; eauto.
Qed.

(** X10.  [format_event] returns a text, and prints nothing, for every
    record whose [type] is a string, whose [repo] and [payload] are
    objects where present, and whose [commits] is a list and [action] a
    string where present; every other field may be missing.  With the
    date shown it returns too when [created_at] is absent or a string. *)
Theorem format_event_total (utcnow : nat -> datetime) (repr : json -> string)
        (e : json) (w : world) :
  describable e ->
  (exists d, format_event utcnow repr e false w = (Ok d, w)) /\
  (created_at_absent_or_string e ->
   exists d w', format_event utcnow repr e true w = (Ok d, w') /\
                stdout w' = stdout w).
Proof.
  intros H. destruct (description_total repr e H) as [d Hd]. split.
  - exists d. unfold format_event, mbind, lift, mret. now rewrite Hd.
  - intros Hc.
    assert (Hp : exists t, parse_event_date e = Ok t).
    { destruct Hc as (fields & -> & [Hn|(s & Hs)]).
      - rewrite (parse_event_date_missing _ Hn). eauto.
      - rewrite (parse_event_date_str _ _ Hs).
        destruct (Datetime.strptime_iso s); eauto. }
    destruct Hp as [t Ht].
    unfold format_event, get_time_ago. unfold_M. rewrite Hd, Ht.
    eexists _, _. split; reflexivity.
Qed.

Lemma format_event_total_witness :
  (exists d, format_event sample_clock sample_repr null_named_event false
               initial_world = (Ok d, initial_world)) /\
  (exists d w', format_event sample_clock sample_repr null_named_event true
                  initial_world = (Ok d, w') /\
                stdout w' = stdout initial_world).
Proof.
  assert (Hd : describable null_named_event).
  { eexists _, "WatchEvent".
    split; [reflexivity|]. split; [reflexivity|].
    split; [right; eexists; reflexivity|left; reflexivity]. }
  assert (Hc : created_at_absent_or_string null_named_event).
  { eexists. split; [reflexivity|]. right. eexists. reflexivity. }
  destruct (format_event_total sample_clock sample_repr null_named_event
              initial_world Hd) as [H1 H2].
  split; [exact H1|exact (H2 Hc)].
Defined.

(** The text for a record whose repository name is [null], a day after
    its date: the name is shown as Python prints [None]. *)
Example format_event_null_name :
  fst (format_event sample_clock sample_repr null_named_event true
         initial_world) = Ok "Starred None (1 day ago)".
Proof. vm_compute. reflexivity. Qed.


(** ** Arguments *)

Lemma assoc_recognized (k t : string) :
  assoc k EVENT_TYPE_MAP = Some t -> recognized t = true.
Proof.
  unfold recognized. generalize EVENT_TYPE_MAP as m.
  induction m as [|[k' v] m IH]; simpl; [discriminate|].
  destruct (String.eqb k k').
  - intros [= ->]. now rewrite String.eqb_refl.
  - intros H. rewrite (IH H). apply orb_true_r.
Qed.

Section Arguments.

Variable utcnow : nat -> datetime.

Lemma parse_loop_tag (n : nat) :
  forall (args : list string) (f f' : filters) (w w' : world),
    (List.length args <= n)%nat ->
    tag_or_absent f ->
    parse_loop utcnow args f w = (Ok f', w') ->
    tag_or_absent f'.
Proof.
  induction n as [|n IH]; intros args f f' w w' Hlen Hf.
  - destruct args; [|simpl in Hlen; lia].
    simpl. unfold mret. now intros [= <- _].
  - destruct args as [|arg rest].
    { simpl. unfold mret. now intros [= <- _]. }
    simpl in Hlen.
    assert (IH1 : forall f w, tag_or_absent f ->
                    parse_loop utcnow rest f w = (Ok f', w') -> tag_or_absent f')
      by (intros f0 w0; apply IH; lia).
    assert (IH2 : forall v rest' f w, rest = v :: rest' -> tag_or_absent f ->
                    parse_loop utcnow rest' f w = (Ok f', w') -> tag_or_absent f')
      by (intros v rest' f0 w0 ->; apply IH; simpl in Hlen; lia).
    cbn [parse_loop].
    destruct (is_in arg ["--type"; "-t"]).
    { destruct rest as [|value rest']; [discriminate|].
      destruct (assoc _ _) as [t|] eqn:Ht; unfold_M.
      - eapply IH2; [reflexivity|].
        unfold tag_or_absent. cbn [event_type set_event_type].
        now apply assoc_recognized in Ht.
      - eapply IH2; [reflexivity|assumption]. }
    destruct (is_in arg ["--repo"; "-r"]).
    { destruct rest as [|value rest']; [discriminate|].
      eapply IH2; [reflexivity|exact Hf]. }
    destruct (is_in arg ["--limit"; "-l"]).
    { destruct rest as [|value rest']; [discriminate|]. unfold_M.
      destruct (PyInt.parse value) as [k|e] eqn:Hp.
      - eapply IH2; [reflexivity|exact Hf].
      - rewrite (PyInt_parse_raises _ _ Hp). discriminate. }
    destruct (is_in arg ["--date"; "-d"]).
    { destruct rest as [|value rest']; [discriminate|]. unfold_M.
      destruct (Datetime.strptime_date value) as [k|e] eqn:Hp.
      - eapply IH2; [reflexivity|exact Hf].
      - rewrite (strptime_date_raises _ _ Hp). discriminate. }
    destruct (arg =? "--today")%string; [unfold_M; apply IH1; exact Hf|].
    destruct (arg =? "--week")%string.
    { unfold_M. unfold minus_days.
      match goal with |- context [if ?c then _ else _] => destruct c end;
        [discriminate|apply IH1; exact Hf]. }
    unfold_M. apply IH1. exact Hf.
Qed.

(** X11.  Whatever the arguments, the category [parse_arguments] stores
    is a tag of [EVENT_TYPE_MAP] or is absent; it is never the empty
    string, nor a text the user typed. *)
Theorem parse_arguments_category_is_a_tag (argv : list string) (w w' : world)
        (username : option string) (f : filters) :
  parse_arguments utcnow argv w = (Ok (username, f), w') ->
  tag_or_absent f /\ event_type f <> Some EmptyString.
Proof.
  intros H.
  assert (Ht : tag_or_absent f).
  { destruct argv as [|u rest]; simpl in H.
    - unfold mret in H. injection H as _ <- _. exact I.
    - unfold mbind, mret in H.
      destruct (parse_loop utcnow rest no_filters w) as [[f0|e] w0] eqn:Hp;
        [|discriminate].
      injection H as _ <- _.
      apply (parse_loop_tag (List.length rest) rest no_filters f0 w w0
               (le_n _) I Hp). }
  split; [exact Ht|]. unfold tag_or_absent in Ht.
  destruct (event_type f) as [t|]; [|discriminate].
  intros [= ->]. discriminate Ht.
Qed.

(** X12.  The arguments are read from left to right: when a first part
    is read to its end without a fatal error, what follows is read from
    the filters and the output that part has left. *)
Theorem parse_loop_left_to_right (pre post : list string) (f f' : filters)
        (w w' : world) :
  parse_loop utcnow pre f w = (Ok f', w') ->
  parse_loop utcnow (pre ++ post) f w = parse_loop utcnow post f' w'.
Proof. apply (parse_loop_app utcnow (List.length pre)). apply le_n. Qed.

Lemma type_value_lowered (flag v1 v2 : string) (rest : list string)
      (f : filters) (w : world) :
  In flag ["--type"; "-t"] -> Str.lower v1 = Str.lower v2 ->
  parse_loop utcnow (flag :: v1 :: rest) f w
  = parse_loop utcnow (flag :: v2 :: rest) f w.
Proof.
  intros Hflag Hv. simpl in Hflag.
  destruct Hflag as [<-|[<-|[]]];
    cbn [parse_loop is_in existsb String.eqb Ascii.eqb Bool.eqb orb];
    now rewrite Hv.
Qed.

End Arguments.

Lemma parse_arguments_category_is_a_tag_witness :
  tag_or_absent (set_event_type no_filters "PullRequestEvent") /\
  event_type (set_event_type no_filters "PullRequestEvent") <> Some EmptyString.
Proof.
  apply (parse_arguments_category_is_a_tag sample_clock
           ["octocat"; "--type"; "PR"] initial_world initial_world
           (Some "octocat")).
  reflexivity.
Defined.

Lemma parse_loop_left_to_right_witness :
  parse_loop sample_clock (["--repo"; "x"] ++ ["--limit"; "3"]) no_filters
    initial_world
  = parse_loop sample_clock ["--limit"; "3"] (set_repo no_filters "x")
      initial_world.
Proof.
  apply (parse_loop_left_to_right sample_clock ["--repo"; "x"]
           ["--limit"; "3"] no_filters (set_repo no_filters "x")
           initial_world initial_world).
  reflexivity.
Defined.

(** ** Runs *)

Lemma event_lines_length (utcnow : nat -> datetime) (repr : json -> string)
      (with_age : bool) (events : list json) :
  forall k, List.length (event_lines utcnow repr with_age k events)
            = List.length events.
Proof. induction events as [|e events IH]; intros k; simpl; auto. Qed.

Section Runs.

Variable utcnow : nat -> datetime.
Variable repr : json -> string.
Variable strftime_ymd : datetime -> string.
Variable urlopen : string -> response.

(** X13.  The alias given to [--type] is matched whatever its case: two
    runs that differ only in the case of that alias print the same lines
    and end with the same status. *)
Theorem type_alias_ignores_case (username flag v1 v2 : string)
        (pre post : list string) :
  parses utcnow pre ->
  In flag ["--type"; "-t"] ->
  Str.lower v1 = Str.lower v2 ->
  run utcnow repr strftime_ymd urlopen (username :: pre ++ flag :: v1 :: post)
  = run utcnow repr strftime_ymd urlopen (username :: pre ++ flag :: v2 :: post).
Proof.
  intros (f & w & Hpre) Hflag Hv. rewrite !run_cons.
  rewrite !(parse_loop_app utcnow (List.length pre) pre _ _ _ _ _ (le_n _) Hpre).
  now rewrite (type_value_lowered utcnow flag v1 v2 post f w Hflag Hv).
Qed.

(** X14.  When no event passes the filters, a run prints, after the
    warnings of the arguments, the progress notice and the line that says
    so, and nothing else: no header and no filter summary. *)
Theorem run_without_matches (argv : list string) (username : string)
        (f : filters) (w : world) (events : list json) :
  parse_arguments utcnow argv initial_world = (Ok (Some username, f), w) ->
  urlopen (url_of username) = Events events ->
  filter_events events f = Ok [] ->
  run utcnow repr strftime_ymd urlopen argv
  = (0, app (stdout w)
            ["Fetching activity for GitHub user: " ++ username ++ "...";
             "No activity found matching the filters."]).
Proof.
  intros Hp Hu Hf. destruct argv as [|u rest]; [discriminate Hp|].
  simpl in Hp. unfold mbind, mret in Hp.
  destruct (parse_loop utcnow rest no_filters initial_world) as [[f0|e] w0] eqn:Hl;
    [|discriminate].
  injection Hp as -> -> ->.
  rewrite run_cons, Hl. cbn zeta. rewrite Hu, Hf.
  unfold display_activity, print. cbn [snd fst stdout clock_reads exit_status].
  now rewrite <- app_assoc.
Qed.

(** X15.  A run ends with status 0 or 1, whatever its arguments, the
    answer of the network and the records received. *)
Theorem run_status_is_0_or_1 (argv : list string) :
  fst (run utcnow repr strftime_ymd urlopen argv) = 0 \/
  fst (run utcnow repr strftime_ymd urlopen argv) = 1.
Proof.
  destruct argv as [|username rest]; [right; reflexivity|].
  rewrite run_cons.
  pose proof (parse_loop_ends_with_1 utcnow (List.length rest) rest
                no_filters initial_world (le_n _)) as Hends.
  destruct (parse_loop utcnow rest no_filters initial_world) as [[f|e] w].
  - cbn zeta.
    destruct (urlopen (url_of username)) as [c reason|reason| |events];
      try (right; reflexivity).
    pose proof (no_exit_filter_events events f) as Hf.
    destruct (filter_events events f) as [F|e].
    + pose proof (no_exit_display_activity utcnow repr strftime_ymd F f
             (snd (print ("Fetching activity for GitHub user: "
                          ++ username ++ "...") w))) as Hd.
      destruct (display_activity utcnow repr strftime_ymd F f _)
        as [[[]|e] w2].
      * left. reflexivity.
      * right. cbn [fst] in *. exact (exit_status_no_exit e Hd).
    + right. cbn [fst]. exact (@exit_status_no_exit unit e Hf).
  - right. cbn [fst] in *. exact (@exit_status_ends_with_1 unit e Hends).
Qed.

(** X16.  For a non-empty list [display_activity] calls [print] once per
    event, after two calls for the header, or three when a category, a
    repository substring or a date is set; a limit alone adds no summary.
    The first text is a line feed followed by the title with the number
    of events, so that the output opens with an empty line; the summary,
    when there is one, lists the type, the repository and the date in
    that order; the header ends with a rule of 60 hyphens. *)
Theorem display_activity_header (events : list json) (f : filters)
        (w : world) :
  events <> [] ->
  Forall (formattable repr (date_filter_active f)) events ->
  exists w',
    display_activity utcnow repr strftime_ymd events f w = (Ok tt, w') /\
    stdout w'
    = (stdout w ++ header_texts strftime_ymd (List.length events) f
       ++ event_lines utcnow repr (date_filter_active f) (clock_reads w)
            events)%list /\
    List.length (stdout w')
    = (List.length (stdout w) + (if summary_shown f then 3 else 2)
       + List.length events)%nat.
Proof.
  intros Hne Hall. destruct events as [|e events]; [contradiction|].
  unfold display_activity.
  match goal with
  | |- context [match ?fd with [] => mret tt | _ :: _ => print _ end] =>
      set (filter_desc := fd)
  end.
  assert (Hparts : filter_desc = summary_parts strftime_ymd f).
  { subst filter_desc. unfold summary_parts.
    destruct (truthy_str (event_type f)), (truthy_str (repo f)),
      (date_from f); reflexivity. }
  assert (Hfd : summary_shown f
                = match filter_desc with [] => false | _ => true end).
  { subst filter_desc. unfold summary_shown.
    destruct (truthy_str (event_type f)), (truthy_str (repo f)),
      (date_from f); reflexivity. }
  clearbody filter_desc.
  change (match date_from f with Some _ => true | None => false end)
    with (date_filter_active f).
  unfold header_texts. rewrite <- Hparts, Hfd.
  unfold mbind at 1. unfold print at 1. cbn [stdout clock_reads].
  unfold mbind at 1.
  destruct filter_desc as [|x fd].
  - unfold mret at 1. unfold mbind at 1. unfold print at 1.
    cbn [stdout clock_reads].
    rewrite (for_each_event_lines _ _ _ _ _ Hall). cbn [stdout clock_reads].
    eexists. split; [reflexivity|]. cbn [stdout]. split.
    + rewrite <- !app_assoc. reflexivity.
    + rewrite !length_app, event_lines_length. simpl. lia.
  - unfold print at 1. cbn [stdout clock_reads].
    unfold mbind at 1. unfold print at 1. cbn [stdout clock_reads].
    rewrite (for_each_event_lines _ _ _ _ _ Hall). cbn [stdout clock_reads].
    eexists. split; [reflexivity|]. cbn [stdout]. split.
    + rewrite <- !app_assoc. reflexivity.
    + rewrite !length_app, event_lines_length. simpl. lia.
Qed.

End Runs.

Lemma type_alias_ignores_case_witness :
  run sample_clock sample_repr sample_strftime sample_urlopen
    ("octocat" :: ["--repo"; "octo"] ++ "--type" :: "STAR" :: [])
  = run sample_clock sample_repr sample_strftime sample_urlopen
      ("octocat" :: ["--repo"; "octo"] ++ "--type" :: "star" :: []).
Proof.
  apply (type_alias_ignores_case sample_clock sample_repr sample_strftime
           sample_urlopen "octocat" "--type" "STAR" "star"
           ["--repo"; "octo"] []).
  - eexists; eexists; reflexivity.
  - left; reflexivity.
  - reflexivity.
Defined.

Lemma run_without_matches_witness :
  run sample_clock sample_repr sample_strftime sample_urlopen
    ["octocat"; "--type"; "fork"]
  = (0, ["Fetching activity for GitHub user: octocat...";
         "No activity found matching the filters."]).
Proof.
  apply (run_without_matches sample_clock sample_repr sample_strftime
           sample_urlopen ["octocat"; "--type"; "fork"] "octocat"
           (set_event_type no_filters "ForkEvent") initial_world
           sample_events); reflexivity.
Defined.

Lemma display_activity_header_witness :
  exists w',
    display_activity sample_clock sample_repr sample_strftime
      [push_event; watch_event] (only_limit 5) initial_world = (Ok tt, w') /\
    stdout w'
    = (stdout initial_world
       ++ header_texts sample_strftime
            (List.length [push_event; watch_event]) (only_limit 5)
       ++ event_lines sample_clock sample_repr
            (date_filter_active (only_limit 5)) (clock_reads initial_world)
            [push_event; watch_event])%list /\
    List.length (stdout w')
    = (List.length (stdout initial_world)
       + (if summary_shown (only_limit 5) then 3 else 2)
       + List.length [push_event; watch_event])%nat.
Proof.
  assert (Hne : [push_event; watch_event] <> []) by discriminate.
  assert (Hall : Forall (formattable sample_repr
                           (date_filter_active (only_limit 5)))
                        [push_event; watch_event]).
  { repeat constructor; try (eexists; reflexivity); discriminate. }
  exact (display_activity_header sample_clock sample_repr sample_strftime
           [push_event; watch_event] (only_limit 5) initial_world Hne Hall).
Defined.

(** The texts of a display with a category and a date set. *)
Example display_activity_texts :
  snd (display_activity sample_clock sample_repr sample_strftime
         [watch_event]
         {| event_type := Some "WatchEvent"; repo := None;
            date_from := Some 1; limit := None |} initial_world)
  = {| stdout := [newline ++ "Recent Activity (1 events)";
                  "Filters: Type: Star, Since: 2024-01-01";
                  repeat_string "-" 60;
                  "- Starred octo/repo (1 day ago)"];
       clock_reads := 1 |}.
Proof. vm_compute. reflexivity. Qed.
